(** * OPS EPO server: XML normalizer, response decoder, client and tools

    A shallow embedding of [server.py].  Python [str] values are modelled
    as Rocq strings holding their UTF-8 bytes, Python dictionaries as
    stdpp's [gmap string _] (the code never depends on insertion order),
    Python lists as [list], and exceptions as an explicit result type
    threaded through a small state-and-exception monad. *)

From Stdlib Require Import ZArith Ascii String.
From stdpp Require Import gmap strings list fin_maps.

#[local] Set Warnings "-register-all".
#[local] Open Scope string_scope.
#[local] Open Scope list_scope.

(** ** Python strings *)

Module PyStr.

(** [str.strip()] removes the code points for which [str.isspace()] holds.
    On the UTF-8 bytes of a string these are the one-byte code points
    U+0009..U+000D, U+001C..U+0020, the two-byte U+0085 and U+00A0, and
    the three-byte U+1680, U+2000..U+200A, U+2028, U+2029, U+202F, U+205F
    and U+3000. *)

Definition byte (c : ascii) : nat := nat_of_ascii c.

Definition space1 (c : ascii) : bool :=
  let n := byte c in
  (((9 <=? n) && (n <=? 13)) || ((28 <=? n) && (n <=? 32)))%nat.

Definition space2 (c1 c2 : ascii) : bool :=
  ((byte c1 =? 194) && ((byte c2 =? 133) || (byte c2 =? 160)))%nat.

Definition space3 (c1 c2 c3 : ascii) : bool :=
  let n1 := byte c1 in
  let n2 := byte c2 in
  let n3 := byte c3 in
  (((n1 =? 225) && (n2 =? 154) && (n3 =? 128))
   || ((n1 =? 226) && (n2 =? 128)
       && (((128 <=? n3) && (n3 <=? 138)) || (n3 =? 168) || (n3 =? 169)
           || (n3 =? 175)))
   || ((n1 =? 226) && (n2 =? 129) && (n3 =? 159))
   || ((n1 =? 227) && (n2 =? 128) && (n3 =? 128)))%nat.

(** Drop leading white space; [fwd] tells whether the bytes are read in
    their encoding order or, for the reversed string, back to front. *)
Fixpoint drop_space (fwd : bool) (s : string) : string :=
  match s with
  | EmptyString => EmptyString
  | String c1 s1 =>
      if space1 c1 then drop_space fwd s1
      else match s1 with
           | EmptyString => s
           | String c2 s2 =>
               if (if fwd then space2 c1 c2 else space2 c2 c1)
               then drop_space fwd s2
               else match s2 with
                    | EmptyString => s
                    | String c3 s3 =>
                        if (if fwd then space3 c1 c2 c3 else space3 c3 c2 c1)
                        then drop_space fwd s3
                        else s
                    end
           end
  end.

Definition lstrip (s : string) : string := drop_space true s.

Definition rstrip (s : string) : string :=
  String.rev (drop_space false (String.rev s)).

Definition strip (s : string) : string := rstrip (lstrip s).

(** Truth value of a [str]: non-empty. *)
Definition truthy (s : string) : bool :=
  match s with EmptyString => false | String _ _ => true end.

(** [s.startswith(p)] *)
Definition startswith (s p : string) : bool := String.prefix p s.

End PyStr.

(** ** Python values *)

(** The values the server builds and returns: [None], booleans, integers
    (only as parts of a decoded JSON body), strings, lists and
    dictionaries with string keys. *)
Inductive value :=
  | VNone
  | VBool (b : bool)
  | VInt (n : Z)
  | VStr (s : string)
  | VList (l : list value)
  | VDict (d : gmap string value).

Definition is_list (v : value) : bool :=
  match v with VList _ => true | _ => false end.

(** Truth value of a dictionary: [len(d) != 0]. *)
Definition dict_truthy {A} (d : gmap string A) : bool :=
  negb (size d =? 0)%nat.

(** Truth value of any value, as [if x:] computes it. *)
Definition py_truthy (v : value) : bool :=
  match v with
  | VNone => false
  | VBool b => b
  | VInt n => negb (n =? 0)%Z
  | VStr s => PyStr.truthy s
  | VList l => negb (length l =? 0)%nat
  | VDict d => dict_truthy d
  end.

(** ** XML elements *)

(** [xml.etree.ElementTree.Element] as the code reads it: [tag],
    [attrib], [text] ([None] when the element has no text) and the child
    elements in document order.  The [tail] of an element is never read
    by the server and is left out. *)
Inductive Element :=
  mkElement (tag : string) (attrib : gmap string string)
            (text : option string) (children : list Element).

Definition tag (e : Element) : string :=
  match e with mkElement t _ _ _ => t end.
Definition attrib (e : Element) : gmap string string :=
  match e with mkElement _ a _ _ => a end.
Definition text (e : Element) : option string :=
  match e with mkElement _ _ t _ => t end.
Definition children (e : Element) : list Element :=
  match e with mkElement _ _ _ cs => cs end.

(** ** The normalizer, [OPSClient._xml_to_dict] *)

Module Normalizer.

(** [element.text and element.text.strip()] taken as a condition. *)
Definition text_nonblank (t : option string) : bool :=
  match t with
  | None => false
  | Some s => PyStr.truthy s && PyStr.truthy (PyStr.strip s)
  end.

(** [element.text.strip()], evaluated only where the text is present. *)
Definition stripped (t : option string) : string :=
  PyStr.strip (default "" t).

(** One round of the loop over the children (lines 129-134): [chd] is
    the dictionary [children], [t] is [child.tag]. *)
Definition merge_child (chd : gmap string value) (t : string)
    (child_data : value) : gmap string value :=
  match chd !! t with
  | Some existing =>
      let l := match existing with
               | VList l => l
               | _ => [existing]
               end in
      <[t := VList (l ++ [child_data])]> chd
  | None => <[t := child_data]> chd
  end.

Fixpoint _xml_to_dict (element : Element) : value :=
  match element with
  | mkElement _ attrs txt kids =>
      let result : gmap string value := ∅ in
      let result :=
        if dict_truthy attrs
        then <["@attributes" := VDict (VStr <$> attrs)]> result
        else result in
      if text_nonblank txt && (length kids =? 0)%nat
      then VStr (stripped txt)
      else
        let result :=
          if text_nonblank txt
          then <["#text" := VStr (stripped txt)]> result
          else result in
        let chd :=
          foldl (λ chd child, merge_child chd (tag child) (_xml_to_dict child))
                ∅ kids in
        let result := if dict_truthy chd then chd ∪ result else result in
        if dict_truthy result then VDict result else VNone
  end.

(** The dictionary [children] built by the loop, on its own. *)
Definition collect (kids : list Element) : gmap string value :=
  foldl (λ chd child, merge_child chd (tag child) (_xml_to_dict child)) ∅ kids.

End Normalizer.

Import Normalizer.

(** The values stored under one tag: nothing, the single value, or the
    list of the values in document order. *)
Definition grouped (vs : list value) : option value :=
  match vs with
  | [] => None
  | [v] => Some v
  | _ => Some (VList vs)
  end.

(** The normalized children of [e] that carry the tag [t], in document
    order. *)
Definition tagged (t : string) (kids : list Element) : list value :=
  _xml_to_dict <$> filter (λ c, tag c = t) kids.

(** ** Exceptions, HTTP and the runtime *)

(** The exceptions that reach the server's [try] blocks.  [httpx.HTTPError]
    is the common base class of the transport errors and of
    [HTTPStatusError]; [OPSError] is the server's own class. *)
Inductive exn :=
  | TransportError (msg : string)
  | HTTPStatusError (status : Z) (msg : string)
  | OPSError (msg : string)
  | JSONDecodeError (msg : string)
  | KeyError (key : string)
  | TypeError (msg : string)
  | OtherException (msg : string).

(** [isinstance(e, httpx.HTTPError)] *)
Definition is_HTTPError (e : exn) : bool :=
  match e with
  | TransportError _ | HTTPStatusError _ _ => true
  | _ => false
  end.

Definition is_OPSError (e : exn) : bool :=
  match e with OPSError _ => true | _ => false end.

(** [str(e)]; for a [KeyError] it is the [repr] of the missing key. *)
Definition exn_str (e : exn) : string :=
  match e with
  | TransportError msg | HTTPStatusError _ msg | OPSError msg
  | JSONDecodeError msg | TypeError msg | OtherException msg => msg
  | KeyError key => "'" +:+ key +:+ "'"
  end.

(** What the code reads of an [httpx.Response]: the status, the
    [content-type] header if there is one, and the body as text. *)
Record response := mkResponse {
  status_code : Z;
  content_type : option string;
  response_text : string
}.

(** [response.is_success] *)
Definition is_success (r : response) : bool :=
  ((200 <=? status_code r) && (status_code r <=? 299))%Z.

Inductive request :=
  | POST (url : string) (auth : string * string)
         (data : gmap string string) (hdrs : gmap string string)
  | GET (url : string) (hdrs : gmap string string)
        (params : gmap string string).

Inductive outcome :=
  | Raises (e : exn)
  | Responds (r : response).

(** The libraries and the outside world the server runs against:
    [ET.fromstring] ([None] stands for [ET.ParseError]), the decoding of
    a JSON body ([inl msg] stands for [JSONDecodeError]), the remote
    service (its answer may depend on the requests sent before), the
    text httpx puts in an [HTTPStatusError], [str()] of a value that is
    not a string, the text of the [TypeError] raised when a value that
    is not a dictionary is subscripted with a string, and [os.getenv]. *)
Record runtime := mkRuntime {
  fromstring : string → option Element;
  json_loads : string → string + value;
  network : list request → request → outcome;
  status_error_message : string → response → string;
  py_repr : value → string;
  getitem_error_message : value → string;
  getenv : string → option string
}.

(** ** State and the monad of the server *)

Record OPSClient := mkOPSClient {
  access_token : value;
  headers : gmap string string
}.

(** The module's global [ops_client], the number of [httpx.AsyncClient]
    objects opened and not closed, and the requests sent so far. *)
Record world := mkWorld {
  ops_client : option OPSClient;
  live_clients : nat;
  requests : list request
}.

Inductive result (A : Type) :=
  | Return (a : A)
  | Raise (e : exn).
Arguments Return {A} a.
Arguments Raise {A} e.

Definition M (A : Type) : Type := world → result A * world.

#[export] Instance M_ret : MRet M := λ A a w, (Return a, w).

#[export] Instance M_bind : MBind M := λ A B f m w,
  match m w with
  | (Return a, w') => f a w'
  | (Raise e, w') => (Raise e, w')
  end.

Definition raise {A} (e : exn) : M A := λ w, (Raise e, w).

(** [try: m  except <class> as e: handler e] *)
Definition try_except {A} (m : M A) (catches : exn → bool)
    (handler : exn → M A) : M A := λ w,
  match m w with
  | (Raise e, w') => if catches e then handler e w' else (Raise e, w')
  | r => r
  end.

(** [except Exception] *)
Definition any_Exception (e : exn) : bool := true.

Definition get_ops_client : M (option OPSClient) := λ w, (Return (ops_client w), w).

Definition set_ops_client (c : OPSClient) : M unit := λ w,
  (Return (), mkWorld (Some c) (live_clients w) (requests w)).

(** ** The client, [OPSClient] *)

Definition OPS_BASE_URL : string := "https://ops.epo.org/3.2/rest-services".
Definition USER_AGENT : string := "ops-mcp-server/1.0".

Section Server.

Context (rt : runtime).

(** A request through an [httpx.AsyncClient]. *)
Definition send (req : request) : M response := λ w,
  let w' := mkWorld (ops_client w) (live_clients w) (requests w ++ [req]) in
  match network rt (requests w) req with
  | Raises e => (Raise e, w')
  | Responds r => (Return r, w')
  end.

Definition raise_for_status (url : string) (r : response) : M unit :=
  if is_success r then mret ()
  else raise (HTTPStatusError (status_code r) (status_error_message rt url r)).

(** [response.json()] *)
Definition json (r : response) : M value :=
  match json_loads rt (response_text r) with
  | inl msg => raise (JSONDecodeError msg)
  | inr v => mret v
  end.

(** [v[key]] for a string [key] *)
Definition getitem (v : value) (key : string) : M value :=
  match v with
  | VDict d =>
      match d !! key with
      | Some x => mret x
      | None => raise (KeyError key)
      end
  | _ => raise (TypeError (getitem_error_message rt v))
  end.

(** [f"{v}"] *)
Definition format_value (v : value) : string :=
  match v with
  | VStr s => s
  | _ => py_repr rt v
  end.

(** [OPSClient.__init__] *)
Definition OPSClient_init (token : value) : M OPSClient := λ w,
  let hdrs : gmap string string :=
    <["Accept" := "application/xml"]> (<["User-Agent" := USER_AGENT]> ∅) in
  let hdrs :=
    if py_truthy token
    then <["Authorization" := "Bearer " +:+ format_value token]> hdrs
    else hdrs in
  (Return (mkOPSClient token hdrs),
   mkWorld (ops_client w) (S (live_clients w)) (requests w)).

(** [OPSClient.__aexit__]: [await self.client.aclose()] *)
Definition __aexit__ (self : OPSClient) : M unit := λ w,
  (Return (), mkWorld (ops_client w) (pred (live_clients w)) (requests w)).

Definition auth_url : string := "https://ops.epo.org/3.2/auth/accesstoken".

Definition token_request (consumer_key consumer_secret : string) : request :=
  POST auth_url (consumer_key, consumer_secret)
       {["grant_type" := "client_credentials"]}
       {["Content-Type" := "application/x-www-form-urlencoded"]}.

Definition get_auth_token (self : OPSClient)
    (consumer_key consumer_secret : string) : M value :=
  try_except
    (response ← send (token_request consumer_key consumer_secret);
     raise_for_status auth_url response;;
     token_data ← json response;
     getitem token_data "access_token")
    is_HTTPError
    (λ e, raise (OPSError ("Erreur d'authentification: " +:+ exn_str e))).

Definition _parse_xml_response (xml_content : string) : value :=
  match fromstring rt xml_content with
  | Some root =>
      let result := _xml_to_dict root in
      match result with
      | VStr _ => VDict {["text_content" := result]}
      | VNone => VDict {["empty" := VBool true]}
      | _ => result
      end
  | None => VDict {["raw_xml" := VStr xml_content]}
  end.

(** [params or {}] *)
Definition or_empty (params : option (gmap string string))
    : gmap string string :=
  match params with
  | Some p => if dict_truthy p then p else ∅
  | None => ∅
  end.

Definition make_request (self : OPSClient) (endpoint : string)
    (params : option (gmap string string)) : M value :=
  let url := OPS_BASE_URL +:+ endpoint in
  try_except
    (response ← send (GET url (headers self) (or_empty params));
     raise_for_status url response;;
     if PyStr.startswith (default "" (content_type response)) "application/xml"
     then mret (_parse_xml_response (response_text response))
     else mret (VDict {["raw_content" := VStr (response_text response)]}))
    is_HTTPError
    (λ e, raise (OPSError ("Erreur de requête vers " +:+ url +:+ ": "
                           +:+ exn_str e))).


(** ** The tools *)

Definition NOT_AUTHENTICATED : value :=
  VDict {["error" :=
          VStr "Veuillez d'abord vous authentifier avec authenticate_ops()"]}.

(** [return {"error": str(e)}] *)
Definition error_envelope (e : exn) : M value :=
  mret (VDict {["error" := VStr (exn_str e)]}).

(** The body shared by the two authentication tools (lines 162-172 and
    189-199); [ok] is the message returned on success. *)
Definition authenticate_with (consumer_key consumer_secret ok : string)
    : M value :=
  try_except
    (c ← OPSClient_init VNone;
     set_ops_client c;;
     token ← get_auth_token c consumer_key consumer_secret;
     __aexit__ c;;
     c' ← OPSClient_init token;
     set_ops_client c';;
     mret (VStr ok))
    any_Exception
    (λ e, mret (VStr ("Erreur d'authentification: " +:+ exn_str e))).

(** [not x] for an [Optional[str]] *)
Definition missing (x : option string) : bool :=
  match x with
  | None => true
  | Some s => negb (PyStr.truthy s)
  end.

Definition authenticate_ops_env : M value :=
  let consumer_key := getenv rt "OPS_ID" in
  let consumer_secret := getenv rt "OPS_SECRET" in
  if missing consumer_key || missing consumer_secret
  then mret (VStr "Erreur: Variables d'environnement OPS_ID et OPS_SECRET non trouvées dans le fichier .env")
  else authenticate_with (default "" consumer_key) (default "" consumer_secret)
         "Authentification réussie ! Token obtenu et configuré avec les clés du .env.".

Definition authenticate_ops (consumer_key consumer_secret : string)
    : M value :=
  authenticate_with consumer_key consumer_secret
    "Authentification réussie ! Token obtenu et configuré.".

Definition search_patents (query constituent range_param : string)
    : M value :=
  client ← get_ops_client;
  match client with
  | None => mret NOT_AUTHENTICATED
  | Some ops_client =>
      try_except
        (let endpoint :=
           if bool_decide (constituent ≠ "biblio")
           then "/published-data/search/" +:+ constituent
           else "/published-data/search" in
         let params : gmap string string :=
           <["Range" := range_param]> (<["q" := query]> ∅) in
         result ← make_request ops_client endpoint (Some params);
         mret (VDict (<["results" := result]>
                      (<["range" := VStr range_param]>
                       (<["constituent" := VStr constituent]>
                        (<["query" := VStr query]> ∅))))))
        any_Exception error_envelope
  end.

Definition get_patent_biblio (reference_type reference_format number : string)
    : M value :=
  client ← get_ops_client;
  match client with
  | None => mret NOT_AUTHENTICATED
  | Some ops_client =>
      try_except
        (let endpoint := "/published-data/" +:+ reference_type +:+ "/"
                         +:+ reference_format +:+ "/" +:+ number +:+ "/biblio" in
         result ← make_request ops_client endpoint None;
         mret (VDict (<["biblio_data" := result]>
                      (<["number" := VStr number]>
                       (<["reference_format" := VStr reference_format]>
                        (<["reference_type" := VStr reference_type]> ∅))))))
        any_Exception error_envelope
  end.

Definition get_patent_abstract (reference_type reference_format number : string)
    : M value :=
  client ← get_ops_client;
  match client with
  | None => mret NOT_AUTHENTICATED
  | Some ops_client =>
      try_except
        (let endpoint := "/published-data/" +:+ reference_type +:+ "/"
                         +:+ reference_format +:+ "/" +:+ number +:+ "/abstract" in
         result ← make_request ops_client endpoint None;
         mret (VDict (<["abstract_data" := result]>
                      (<["number" := VStr number]>
                       (<["reference_format" := VStr reference_format]>
                        (<["reference_type" := VStr reference_type]> ∅))))))
        any_Exception error_envelope
  end.

Definition get_patent_claims (reference_type reference_format number : string)
    : M value :=
  client ← get_ops_client;
  match client with
  | None => mret NOT_AUTHENTICATED
  | Some ops_client =>
      try_except
        (let endpoint := "/published-data/" +:+ reference_type +:+ "/"
                         +:+ reference_format +:+ "/" +:+ number +:+ "/claims" in
         result ← make_request ops_client endpoint None;
         mret (VDict (<["claims_data" := result]>
                      (<["number" := VStr number]>
                       (<["reference_format" := VStr reference_format]>
                        (<["reference_type" := VStr reference_type]> ∅))))))
        any_Exception error_envelope
  end.

Definition get_patent_description (reference_type reference_format number : string)
    : M value :=
  client ← get_ops_client;
  match client with
  | None => mret NOT_AUTHENTICATED
  | Some ops_client =>
      try_except
        (let endpoint := "/published-data/" +:+ reference_type +:+ "/"
                         +:+ reference_format +:+ "/" +:+ number +:+ "/description" in
         result ← make_request ops_client endpoint None;
         mret (VDict (<["description_data" := result]>
                      (<["number" := VStr number]>
                       (<["reference_format" := VStr reference_format]>
                        (<["reference_type" := VStr reference_type]> ∅))))))
        any_Exception error_envelope
  end.

Definition get_patent_equivalents (reference_type reference_format number : string)
    : M value :=
  client ← get_ops_client;
  match client with
  | None => mret NOT_AUTHENTICATED
  | Some ops_client =>
      try_except
        (let endpoint := "/published-data/" +:+ reference_type +:+ "/"
                         +:+ reference_format +:+ "/" +:+ number +:+ "/equivalents" in
         result ← make_request ops_client endpoint None;
         mret (VDict (<["equivalents_data" := result]>
                      (<["number" := VStr number]>
                       (<["reference_format" := VStr reference_format]>
                        (<["reference_type" := VStr reference_type]> ∅))))))
        any_Exception error_envelope
  end.

Definition get_patent_family (reference_type reference_format number : string)
    (include_biblio : bool) : M value :=
  client ← get_ops_client;
  match client with
  | None => mret NOT_AUTHENTICATED
  | Some ops_client =>
      try_except
        (let endpoint := "/family/" +:+ reference_type +:+ "/"
                         +:+ reference_format +:+ "/" +:+ number in
         let endpoint :=
           if include_biblio then endpoint +:+ "/biblio" else endpoint in
         result ← make_request ops_client endpoint None;
         mret (VDict (<["family_data" := result]>
                      (<["include_biblio" := VBool include_biblio]>
                       (<["number" := VStr number]>
                        (<["reference_format" := VStr reference_format]>
                         (<["reference_type" := VStr reference_type]> ∅)))))))
        any_Exception error_envelope
  end.

Definition get_legal_data (reference_type reference_format number : string)
    : M value :=
  client ← get_ops_client;
  match client with
  | None => mret NOT_AUTHENTICATED
  | Some ops_client =>
      try_except
        (let endpoint := "/legal/" +:+ reference_type +:+ "/"
                         +:+ reference_format +:+ "/" +:+ number in
         result ← make_request ops_client endpoint None;
         mret (VDict (<["legal_data" := result]>
                      (<["number" := VStr number]>
                       (<["reference_format" := VStr reference_format]>
                        (<["reference_type" := VStr reference_type]> ∅))))))
        any_Exception error_envelope
  end.

Definition search_register_data (query constituent range_param : string)
    : M value :=
  client ← get_ops_client;
  match client with
  | None => mret NOT_AUTHENTICATED
  | Some ops_client =>
      try_except
        (let endpoint :=
           if bool_decide (constituent ≠ "biblio")
           then "/register/search/" +:+ constituent
           else "/register/search" in
         let params : gmap string string :=
           <["Range" := range_param]> (<["q" := query]> ∅) in
         result ← make_request ops_client endpoint (Some params);
         mret (VDict (<["results" := result]>
                      (<["range" := VStr range_param]>
                       (<["constituent" := VStr constituent]>
                        (<["query" := VStr query]> ∅))))))
        any_Exception error_envelope
  end.

(** An [Optional[str]] argument as a value. *)
Definition of_optional (x : option string) : value :=
  match x with
  | None => VNone
  | Some s => VStr s
  end.

Definition get_cpc_classification (cpc_class : string)
    (subclass : option string) (ancestors navigation : bool)
    (depth : string) : M value :=
  client ← get_ops_client;
  match client with
  | None => mret NOT_AUTHENTICATED
  | Some ops_client =>
      try_except
        (let endpoint :=
           if negb (missing subclass)
           then "/classification/cpc/" +:+ cpc_class +:+ "/"
                +:+ default "" subclass
           else "/classification/cpc/" +:+ cpc_class in
         let params : gmap string string := ∅ in
         let params :=
           if ancestors then <["ancestors" := "true"]> params else params in
         let params :=
           if navigation then <["navigation" := "true"]> params else params in
         let params :=
           if bool_decide (depth ≠ "1")
           then <["depth" := depth]> params
           else params in
         result ← make_request ops_client endpoint (Some params);
         mret (VDict (<["classification_data" := result]>
                      (<["depth" := VStr depth]>
                       (<["navigation" := VBool navigation]>
                        (<["ancestors" := VBool ancestors]>
                         (<["subclass" := of_optional subclass]>
                          (<["cpc_class" := VStr cpc_class]> ∅))))))))
        any_Exception error_envelope
  end.

Definition convert_patent_number
    (reference_type input_format number output_format : string) : M value :=
  client ← get_ops_client;
  match client with
  | None => mret NOT_AUTHENTICATED
  | Some ops_client =>
      try_except
        (let endpoint := "/number-service/" +:+ reference_type +:+ "/"
                         +:+ input_format +:+ "/" +:+ number +:+ "/"
                         +:+ output_format in
         result ← make_request ops_client endpoint None;
         mret (VDict (<["conversion_result" := result]>
                      (<["output_format" := VStr output_format]>
                       (<["input_number" := VStr number]>
                        (<["input_format" := VStr input_format]>
                         (<["reference_type" := VStr reference_type]> ∅)))))))
        any_Exception error_envelope
  end.

(** A call of one of the registered tools ([@mcp.tool()]), every
    argument given. *)
Inductive tool_call :=
  | Call_authenticate_ops_env
  | Call_authenticate_ops (consumer_key consumer_secret : string)
  | Call_search_patents (query constituent range_param : string)
  | Call_get_patent_biblio (reference_type reference_format number : string)
  | Call_get_patent_abstract (reference_type reference_format number : string)
  | Call_get_patent_claims (reference_type reference_format number : string)
  | Call_get_patent_description
      (reference_type reference_format number : string)
  | Call_get_patent_equivalents
      (reference_type reference_format number : string)
  | Call_get_patent_family (reference_type reference_format number : string)
                           (include_biblio : bool)
  | Call_get_legal_data (reference_type reference_format number : string)
  | Call_search_register_data (query constituent range_param : string)
  | Call_get_cpc_classification (cpc_class : string) (subclass : option string)
                                (ancestors navigation : bool) (depth : string)
  | Call_convert_patent_number
      (reference_type input_format number output_format : string).

Definition call_tool (c : tool_call) : M value :=
  match c with
  | Call_authenticate_ops_env => authenticate_ops_env
  | Call_authenticate_ops k s => authenticate_ops k s
  | Call_search_patents q c r => search_patents q c r
  | Call_get_patent_biblio t f n => get_patent_biblio t f n
  | Call_get_patent_abstract t f n => get_patent_abstract t f n
  | Call_get_patent_claims t f n => get_patent_claims t f n
  | Call_get_patent_description t f n => get_patent_description t f n
  | Call_get_patent_equivalents t f n => get_patent_equivalents t f n
  | Call_get_patent_family t f n b => get_patent_family t f n b
  | Call_get_legal_data t f n => get_legal_data t f n
  | Call_search_register_data q c r => search_register_data q c r
  | Call_get_cpc_classification c s a n d => get_cpc_classification c s a n d
  | Call_convert_patent_number t f n o => convert_patent_number t f n o
  end.

End Server.

(** The tools that fetch from the service, as opposed to the two that
    authenticate. *)
Definition fetches (c : tool_call) : bool :=
  match c with
  | Call_authenticate_ops_env | Call_authenticate_ops _ _ => false
  | _ => true
  end.

(** The state of a freshly started server: [ops_client = None]. *)
Definition initial : world := mkWorld None 0 [].

(** The client a failed authentication leaves behind: [OPSClient()]. *)
Definition bare_client : OPSClient :=
  mkOPSClient VNone
    (<["Accept" := "application/xml"]> (<["User-Agent" := USER_AGENT]> ∅)).

(** ** Sample runtimes *)

(** A runtime for the examples: a parser that knows one document, a JSON
    decoder that knows the empty object, the given remote service, and
    the text of the status error httpx raises for a 401. *)
Definition sample_runtime (net : list request → request → outcome) : runtime :=
  mkRuntime
    (λ s, if bool_decide (s = "<e/>")
          then Some (mkElement "e" ∅ None []) else None)
    (λ s, if bool_decide (s = "{}")
          then inr (VDict ∅)
          else inl "Expecting value: line 1 column 1 (char 0)")
    net
    (λ url r, "Client error '401 Unauthorized' for url '" +:+ url +:+ "'")
    (λ _, "")
    (λ _, "object is not subscriptable")
    (λ _, None).

(** A service that answers every request with the same response. *)
Definition answers (r : response) : list request → request → outcome :=
  λ _ _, Responds r.

(** A service that cannot be reached. *)
Definition unreachable : list request → request → outcome :=
  λ _ _, Raises (TransportError "All connection attempts failed").

Definition unauthorized : response :=
  mkResponse 401 (Some "application/json") "{}".

(** ** The envelopes of the tools, as the interface describes them *)

(** The key under which a fetching tool returns the decoded body. *)
Definition result_key (c : tool_call) : string :=
  match c with
  | Call_authenticate_ops_env | Call_authenticate_ops _ _ => ""
  | Call_search_patents _ _ _ | Call_search_register_data _ _ _ => "results"
  | Call_get_patent_biblio _ _ _ => "biblio_data"
  | Call_get_patent_abstract _ _ _ => "abstract_data"
  | Call_get_patent_claims _ _ _ => "claims_data"
  | Call_get_patent_description _ _ _ => "description_data"
  | Call_get_patent_equivalents _ _ _ => "equivalents_data"
  | Call_get_patent_family _ _ _ _ => "family_data"
  | Call_get_legal_data _ _ _ => "legal_data"
  | Call_get_cpc_classification _ _ _ _ _ => "classification_data"
  | Call_convert_patent_number _ _ _ _ => "conversion_result"
  end.

(** The input parameters a fetching tool echoes. *)
Definition echoed (c : tool_call) : gmap string value :=
  match c with
  | Call_authenticate_ops_env | Call_authenticate_ops _ _ => ∅
  | Call_search_patents q k r | Call_search_register_data q k r =>
      <["range" := VStr r]>
        (<["constituent" := VStr k]> (<["query" := VStr q]> ∅))
  | Call_get_patent_biblio t f n | Call_get_patent_abstract t f n
  | Call_get_patent_claims t f n | Call_get_patent_description t f n
  | Call_get_patent_equivalents t f n | Call_get_legal_data t f n =>
      <["number" := VStr n]>
        (<["reference_format" := VStr f]> (<["reference_type" := VStr t]> ∅))
  | Call_get_patent_family t f n b =>
      <["include_biblio" := VBool b]>
        (<["number" := VStr n]>
           (<["reference_format" := VStr f]>
              (<["reference_type" := VStr t]> ∅)))
  | Call_get_cpc_classification k s a n d =>
      <["depth" := VStr d]>
        (<["navigation" := VBool n]>
           (<["ancestors" := VBool a]>
              (<["subclass" := of_optional s]>
                 (<["cpc_class" := VStr k]> ∅))))
  | Call_convert_patent_number t f n o =>
      <["output_format" := VStr o]>
        (<["input_number" := VStr n]>
           (<["input_format" := VStr f]>
              (<["reference_type" := VStr t]> ∅)))
  end.



(** A server that holds a token, and a service that answers a number
    conversion in plain text. *)
Definition authenticated : world :=
  mkWorld
    (Some (mkOPSClient (VStr "token")
             (<["Authorization" := "Bearer token"]>
                (<["Accept" := "application/xml"]>
                   (<["User-Agent" := USER_AGENT]> ∅)))))
    1 [].

Definition plain_answer : response :=
  mkResponse 200 (Some "text/plain") "EP1000000".

(** The decoded body of a token response holds a token. *)
Definition has_access_token (body : string + value) : bool :=
  match body with
  | inr (VDict d) =>
      match d !! "access_token" with Some _ => true | None => false end
  | _ => false
  end.


(** ** The shape of a normalized value *)

(** The entries written before the loop: attributes and text. *)
Definition own_entries (attrs : gmap string string) (txt : option string)
    : gmap string value :=
  let result : gmap string value :=
    if dict_truthy attrs
    then {["@attributes" := VDict (VStr <$> attrs)]}
    else ∅ in
  if text_nonblank txt
  then <["#text" := VStr (stripped txt)]> result
  else result.

(** What [_xml_to_dict] can return: [None], a string, or a dictionary
    that is not empty and whose entries are such values again or, for a
    repeated tag, a list of at least two of them. *)
Inductive canonical : value → Prop :=
  | canonical_None : canonical VNone
  | canonical_Str s : canonical (VStr s)
  | canonical_Dict d :
      d ≠ ∅ →
      (∀ k x, d !! k = Some x → entry x) →
      canonical (VDict d)
with entry : value → Prop :=
  | entry_single x : canonical x → entry x
  | entry_group l :
      (2 ≤ length l)%nat → Forall canonical l → entry (VList l).

(** ** The tools as one procedure, and sessions *)

(** The client [OPSClient.__init__] builds for a token. *)
Definition init_client (rt : runtime) (token : value) : OPSClient :=
  let hdrs : gmap string string :=
    <["Accept" := "application/xml"]> (<["User-Agent" := USER_AGENT]> ∅) in
  mkOPSClient token
    (if py_truthy token
     then <["Authorization" := "Bearer " +:+ format_value rt token]> hdrs
     else hdrs).

(** The endpoint a fetching tool asks for. *)
Definition tool_endpoint (c : tool_call) : string :=
  match c with
  | Call_authenticate_ops_env | Call_authenticate_ops _ _ => ""
  | Call_search_patents _ k _ =>
      if bool_decide (k ≠ "biblio")
      then "/published-data/search/" +:+ k
      else "/published-data/search"
  | Call_get_patent_biblio t f n =>
      "/published-data/" +:+ t +:+ "/" +:+ f +:+ "/" +:+ n +:+ "/biblio"
  | Call_get_patent_abstract t f n =>
      "/published-data/" +:+ t +:+ "/" +:+ f +:+ "/" +:+ n +:+ "/abstract"
  | Call_get_patent_claims t f n =>
      "/published-data/" +:+ t +:+ "/" +:+ f +:+ "/" +:+ n +:+ "/claims"
  | Call_get_patent_description t f n =>
      "/published-data/" +:+ t +:+ "/" +:+ f +:+ "/" +:+ n +:+ "/description"
  | Call_get_patent_equivalents t f n =>
      "/published-data/" +:+ t +:+ "/" +:+ f +:+ "/" +:+ n +:+ "/equivalents"
  | Call_get_patent_family t f n b =>
      let endpoint := "/family/" +:+ t +:+ "/" +:+ f +:+ "/" +:+ n in
      if b then endpoint +:+ "/biblio" else endpoint
  | Call_get_legal_data t f n =>
      "/legal/" +:+ t +:+ "/" +:+ f +:+ "/" +:+ n
  | Call_search_register_data _ k _ =>
      if bool_decide (k ≠ "biblio")
      then "/register/search/" +:+ k
      else "/register/search"
  | Call_get_cpc_classification k s _ _ _ =>
      if negb (missing s)
      then "/classification/cpc/" +:+ k +:+ "/" +:+ default "" s
      else "/classification/cpc/" +:+ k
  | Call_convert_patent_number t f n o =>
      "/number-service/" +:+ t +:+ "/" +:+ f +:+ "/" +:+ n +:+ "/" +:+ o
  end.

(** The [params] argument a fetching tool passes to [make_request]. *)
Definition tool_params (c : tool_call) : option (gmap string string) :=
  match c with
  | Call_search_patents q _ r | Call_search_register_data q _ r =>
      Some (<["Range" := r]> (<["q" := q]> ∅))
  | Call_get_cpc_classification _ _ a n d =>
      let params : gmap string string := ∅ in
      let params := if a then <["ancestors" := "true"]> params else params in
      let params := if n then <["navigation" := "true"]> params else params in
      let params :=
        if bool_decide (d ≠ "1") then <["depth" := d]> params else params in
      Some params
  | _ => None
  end.

(** The request a fetching tool sends through the client [self]. *)
Definition tool_request (self : OPSClient) (c : tool_call) : request :=
  GET (OPS_BASE_URL +:+ tool_endpoint c) (headers self)
      (or_empty (tool_params c)).

(** The body the fetching tools share: the guard, one [make_request],
    the success mapping or the error envelope. *)
Definition fetch_with (rt : runtime) (c : tool_call) : M value :=
  client ← get_ops_client;
  match client with
  | None => mret NOT_AUTHENTICATED
  | Some ops_client =>
      try_except
        (result ← make_request rt ops_client (tool_endpoint c) (tool_params c);
         mret (VDict (<[result_key c := result]> (echoed c))))
        any_Exception error_envelope
  end.

(** Tool calls handled one after the other, each on the world the
    previous one left. *)
Fixpoint session (rt : runtime) (calls : list tool_call) (w : world)
    : list (result value) * world :=
  match calls with
  | [] => ([], w)
  | c :: calls =>
      let (r, w1) := call_tool rt c w in
      let (rs, w2) := session rt calls w1 in
      (r :: rs, w2)
  end.

(** The global [ops_client] is [None] or a client as [__init__] builds
    it. *)
Definition client_built (rt : runtime) (w : world) : Prop :=
  ops_client w = None ∨ ∃ token, ops_client w = Some (init_client rt token).

(** A runtime for the examples whose JSON decoder finds a token in
    every body and whose environment holds the two credentials. *)
Definition token_runtime (token : value)
    (net : list request → request → outcome) : runtime :=
  mkRuntime
    (λ _, None)
    (λ _, inr (VDict {["access_token" := token]}))
    net
    (λ url r, "Server error '503 Service Unavailable' for url '" +:+ url +:+ "'")
    (λ _, "")
    (λ _, "object is not subscriptable")
    (λ name, if bool_decide (name = "OPS_ID") then Some "key"
             else if bool_decide (name = "OPS_SECRET") then Some "secret"
             else None).

Definition token_answer : response :=
  mkResponse 200 (Some "application/json") "token body".

(** * Facts *)

(** ** The examples of the interface description *)

Example leaf_property :
  _xml_to_dict (mkElement "a" ∅ (Some "Hello") []) = VStr "Hello".
Proof. vm_compute. reflexivity. Qed.

Example attribute_property :
  _xml_to_dict (mkElement "a" {["id" := "1"]} None [])
  = VDict {["@attributes" := VDict {["id" := VStr "1"]}]}.
Proof. vm_compute. reflexivity. Qed.

Example repeated_tag_property :
  _xml_to_dict (mkElement "r" ∅ None
     [mkElement "c" ∅ (Some "1") []; mkElement "c" ∅ (Some "2") []])
  = VDict {["c" := VList [VStr "1"; VStr "2"]]}.
Proof. vm_compute. reflexivity. Qed.

Example empty_element_property :
  _xml_to_dict (mkElement "e" ∅ None []) = VNone
  ∧ _xml_to_dict (mkElement "r" ∅ None [mkElement "e" ∅ None []])
    = VDict {["e" := VNone]}.
Proof. split; vm_compute; reflexivity. Qed.

Example whitespace_property :
  _xml_to_dict (mkElement "a" ∅ (Some "   ") []) = VNone.
Proof. vm_compute. reflexivity. Qed.

Example strip_unicode_space :
  PyStr.strip "  a　b  " = "a　b".
Proof. vm_compute. reflexivity. Qed.

(** ** Facts about the normalizer *)

(** Reduce the field projections of a destructed element, and nothing
    else. *)
Ltac fields := cbn [tag attrib text children] in *.

Section NormalizerFacts.

Implicit Types (e c : Element) (kids : list Element) (t : string).
Implicit Types (d chd : gmap string value) (v : value).

Lemma dict_truthy_empty {A} : dict_truthy (∅ : gmap string A) = false.
Proof. reflexivity. Qed.

Lemma dict_truthy_false {A} (m : gmap string A) :
  dict_truthy m = false ↔ m = ∅.
Proof.
  unfold dict_truthy. rewrite negb_false_iff, Nat.eqb_eq.
  apply map_size_empty_iff.
Qed.

Lemma dict_truthy_lookup {A} (m : gmap string A) k x :
  m !! k = Some x → dict_truthy m = true.
Proof.
  intros Hk. destruct (dict_truthy m) eqn:E; [done|].
  apply dict_truthy_false in E. subst m. by rewrite lookup_empty in Hk.
Qed.

Lemma _xml_to_dict_eq tg attrs txt kids :
  _xml_to_dict (mkElement tg attrs txt kids) =
  let result : gmap string value :=
    if dict_truthy attrs
    then {["@attributes" := VDict (VStr <$> attrs)]}
    else ∅ in
  if text_nonblank txt && (length kids =? 0)%nat
  then VStr (stripped txt)
  else
    let result :=
      if text_nonblank txt
      then <["#text" := VStr (stripped txt)]> result
      else result in
    let chd := collect kids in
    let result := if dict_truthy chd then chd ∪ result else result in
    if dict_truthy result then VDict result else VNone.
Proof. reflexivity. Qed.

(** The normalizer returns a string, a dictionary or [None], never a
    list: the [isinstance(..., list)] test of the loop tells a collapsed
    group from a single value. *)
Lemma _xml_to_dict_not_list e : is_list (_xml_to_dict e) = false.
Proof.
  destruct e as [tg attrs txt kids]. rewrite _xml_to_dict_eq. cbv zeta.
  repeat case_match; reflexivity.
Qed.

Lemma merge_child_lookup chd t v t' :
  merge_child chd t v !! t' =
  if decide (t = t')
  then Some (match chd !! t with
             | None => v
             | Some (VList l) => VList (l ++ [v])
             | Some x => VList [x; v]
             end)
  else chd !! t'.
Proof.
  unfold merge_child. case_decide as Ht.
  - subst t'. destruct (chd !! t) as [[]|]; by rewrite lookup_insert_eq.
  - destruct (chd !! t) as [x|]; by rewrite lookup_insert_ne.
Qed.

Lemma grouped_snoc (vs : list value) v :
  Forall (λ x, is_list x = false) vs →
  grouped (vs ++ [v]) =
  Some (match grouped vs with
        | None => v
        | Some (VList l) => VList (l ++ [v])
        | Some x => VList [x; v]
        end).
Proof.
  intros Hvs. destruct vs as [|x [|y r]]; simpl.
  - reflexivity.
  - apply Forall_cons in Hvs as [Hx _]. by destruct x.
  - reflexivity.
Qed.

Lemma collect_snoc kids c :
  collect (kids ++ [c]) = merge_child (collect kids) (tag c) (_xml_to_dict c).
Proof. unfold collect. by rewrite foldl_snoc. Qed.

Lemma tagged_not_list t kids :
  Forall (λ x, is_list x = false) (tagged t kids).
Proof.
  unfold tagged. apply Forall_fmap, Forall_forall. intros c _.
  apply _xml_to_dict_not_list.
Qed.

Lemma tagged_snoc t kids c :
  tagged t (kids ++ [c]) =
  if decide (tag c = t) then tagged t kids ++ [_xml_to_dict c]
  else tagged t kids.
Proof.
  unfold tagged. rewrite filter_app, fmap_app.
  rewrite filter_cons, filter_nil. case_decide; simpl; [done|].
  by rewrite app_nil_r.
Qed.

Lemma tagged_absent t kids :
  (∀ c, c ∈ kids → tag c ≠ t) → tagged t kids = [].
Proof.
  unfold tagged. induction kids as [|c kids IH]; intros Hk; [done|].
  rewrite filter_cons_False by (apply Hk; left).
  apply IH. intros c' Hc'. apply Hk. by right.
Qed.

(** What the loop leaves under each key. *)
Lemma collect_lookup kids t : collect kids !! t = grouped (tagged t kids).
Proof.
  induction kids as [|c kids IH] using rev_ind.
  - unfold collect. simpl. by rewrite lookup_empty.
  - rewrite collect_snoc, merge_child_lookup, tagged_snoc.
    case_decide as Ht.
    + subst t. rewrite grouped_snoc by apply tagged_not_list.
      by rewrite IH.
    + done.
Qed.

Lemma strip_nonempty_truthy s :
  PyStr.strip s ≠ "" → text_nonblank (Some s) = true.
Proof.
  intros Hs. unfold text_nonblank.
  destruct s as [|a s]; [done|].
  destruct (PyStr.strip (String a s)); [done|reflexivity].
Qed.

Lemma strip_empty_blank s :
  PyStr.strip s = "" → text_nonblank (Some s) = false.
Proof.
  intros Hs. unfold text_nonblank. rewrite Hs. simpl. apply andb_false_r.
Qed.

(** Away from the leaf short-circuit an element with attributes keeps
    them under ["@attributes"], unless a child element carries that very
    tag (which no parsed document has: a name cannot start with [@]). *)
Lemma attributes_kept e :
  attrib e ≠ ∅ →
  (text_nonblank (text e) && (length (children e) =? 0)%nat) = false →
  (∀ c, c ∈ children e → tag c ≠ "@attributes") →
  ∃ d, _xml_to_dict e = VDict d
       ∧ d !! "@attributes" = Some (VDict (VStr <$> attrib e)).
Proof.
  destruct e as [tg attrs txt kids]. fields. intros Ha Hleaf Hkids.
  rewrite _xml_to_dict_eq. cbv zeta. rewrite Hleaf.
  assert (dict_truthy attrs = true) as ->.
  { destruct (dict_truthy attrs) eqn:E; [done|].
    by apply dict_truthy_false in E. }
  assert (collect kids !! "@attributes" = None) as Hc.
  { by rewrite collect_lookup, tagged_absent. }
  set (r0 := if text_nonblank txt then _ else _).
  assert (r0 !! "@attributes" = Some (VDict (VStr <$> attrs))) as Hr0.
  { unfold r0. destruct (text_nonblank txt).
    - rewrite lookup_insert_ne by done. apply lookup_singleton_eq.
    - apply lookup_singleton_eq. }
  set (r1 := if dict_truthy (collect kids) then _ else _).
  assert (r1 !! "@attributes" = Some (VDict (VStr <$> attrs))) as Hr1.
  { unfold r1. destruct (dict_truthy (collect kids)); [|done].
    rewrite lookup_union_r; done. }
  exists r1. by rewrite (dict_truthy_lookup _ _ _ Hr1).
Qed.

End NormalizerFacts.

(** C1: an element with non-blank direct text and no children normalizes
    to the trimmed text itself, whatever its attributes are; the result
    is a string, so the attributes are not part of it. *)
Theorem C1_leaf_short_circuit (e : Element) (s : string) :
  text e = Some s →
  PyStr.strip s ≠ "" →
  children e = [] →
  _xml_to_dict e = VStr (PyStr.strip s).
Proof.
  destruct e as [tg attrs txt kids]. fields. intros -> Hs ->.
  rewrite _xml_to_dict_eq. cbv zeta.
  by rewrite (strip_nonempty_truthy _ Hs).
Qed.

Lemma C1_leaf_short_circuit_witness :
  _xml_to_dict (mkElement "title" {["lang" := "en"]} (Some " Hello ") [])
  = VStr "Hello".
Proof.
  apply (C1_leaf_short_circuit
           (mkElement "title" {["lang" := "en"]} (Some " Hello ") [])
           " Hello ");
    [reflexivity | vm_compute; discriminate | reflexivity].
Defined.

(** C2 (at the input where the code departs from it): the element
    [<a id="1">Hello</a>] normalizes to the bare string ["Hello"]; its
    attribute is in no part of the result, although the same element
    with a child element keeps it under ["@attributes"]. *)
Theorem C2_leaf_text_drops_attributes :
  _xml_to_dict (mkElement "a" {["id" := "1"]} (Some "Hello") [])
  = VStr "Hello"
  ∧ _xml_to_dict (mkElement "a" {["id" := "1"]} (Some "Hello")
                    [mkElement "b" ∅ None []])
    = VDict (<["@attributes" := VDict {["id" := VStr "1"]}]>
             (<["#text" := VStr "Hello"]> {["b" := VNone]})).
Proof. split; vm_compute; reflexivity. Qed.

(** C3: under a parent, the children that share a tag are stored under
    that tag in document order: one child as its single value, never as
    a sequence; two or more as the sequence of their values.  The loop
    builds this lazily: a new tag stores the value, the first duplicate
    makes the pair of the stored value and the new one, later duplicates
    are appended. *)
Theorem C3_repeated_tags_collapse (e : Element) (t : string) :
  tagged t (children e) ≠ [] →
  (∃ d, _xml_to_dict e = VDict d
        ∧ d !! t = Some (match tagged t (children e) with
                         | [v] => v
                         | vs => VList vs
                         end)
        ∧ (length (tagged t (children e)) = 1 →
           ∀ l, d !! t ≠ Some (VList l)))
  ∧ (∀ kids c,
       collect (kids ++ [c]) !! tag c =
       Some (match collect kids !! tag c with
             | None => _xml_to_dict c
             | Some (VList l) => VList (l ++ [_xml_to_dict c])
             | Some x => VList [x; _xml_to_dict c]
             end)).
Proof.
  intros Hvs. split.
  - destruct e as [tg attrs txt kids]. fields.
    assert (collect kids !! t = Some (match tagged t kids with
                                      | [v] => v
                                      | vs => VList vs
                                      end)) as Hc.
    { rewrite collect_lookup. by destruct (tagged t kids) as [|? [|]]. }
    assert (kids ≠ []) as Hk by (by intros ->).
    rewrite _xml_to_dict_eq. cbv zeta.
    assert ((length kids =? 0)%nat = false) as ->.
    { apply Nat.eqb_neq. by destruct kids. }
    rewrite andb_false_r, (dict_truthy_lookup _ _ _ Hc).
    set (r0 := if text_nonblank txt then _ else _).
    assert ((collect kids ∪ r0) !! t = collect kids !! t) as Hu.
    { rewrite Hc. by apply lookup_union_Some_l. }
    rewrite Hc in Hu. rewrite (dict_truthy_lookup _ _ _ Hu).
    eexists. split; [reflexivity|]. split; [exact Hu|].
    intros Hlen l. rewrite Hu.
    pose proof (tagged_not_list t kids) as Hnl.
    destruct (tagged t kids) as [|v [|]]; simplify_eq/=.
    apply Forall_cons in Hnl as [Hv _]. intros [= ->]. done.
  - intros kids c. rewrite collect_snoc, merge_child_lookup.
    by rewrite decide_True.
Qed.

Lemma C3_repeated_tags_collapse_witness :
  ∃ d, _xml_to_dict (mkElement "r" ∅ None
         [mkElement "c" ∅ (Some "1") []; mkElement "d" ∅ None [];
          mkElement "c" ∅ (Some "2") []; mkElement "c" ∅ (Some "3") []])
       = VDict d
       ∧ d !! "c" = Some (VList [VStr "1"; VStr "2"; VStr "3"]).
Proof.
  destruct (C3_repeated_tags_collapse
              (mkElement "r" ∅ None
                 [mkElement "c" ∅ (Some "1") []; mkElement "d" ∅ None [];
                  mkElement "c" ∅ (Some "2") []; mkElement "c" ∅ (Some "3") []])
              "c") as [[d [Hd [Ht _]]] _].
  - vm_compute. discriminate.
  - exists d. split; [exact Hd | exact Ht].
Defined.

(** C4: white-space-only direct text counts as no text.  The element
    normalizes exactly as it would with its text removed; the result is
    never the short-circuit string; no ["#text"] key is written; and with
    no attributes and no children the result is the empty marker [None],
    as for the empty element. *)
Theorem C4_blank_text_is_absent (e : Element) (s : string) :
  text e = Some s →
  PyStr.strip s = "" →
  _xml_to_dict e = _xml_to_dict (mkElement (tag e) (attrib e) None (children e))
  ∧ (∀ x, _xml_to_dict e ≠ VStr x)
  ∧ (∀ d, _xml_to_dict e = VDict d →
          (∀ c, c ∈ children e → tag c ≠ "#text") →
          d !! "#text" = None)
  ∧ (attrib e = ∅ → children e = [] →
     _xml_to_dict e = VNone
     ∧ _xml_to_dict e = _xml_to_dict (mkElement (tag e) ∅ None [])).
Proof.
  destruct e as [tg attrs txt kids]. fields. intros -> Hs.
  pose proof (strip_empty_blank _ Hs) as Hb.
  rewrite !_xml_to_dict_eq. cbv zeta. rewrite Hb. simpl.
  split; [reflexivity|]. split; [|split].
  - intros x. repeat case_match; discriminate.
  - intros d Hd Hkids.
    assert (collect kids !! "#text" = None) as Hc.
    { by rewrite collect_lookup, tagged_absent. }
    assert ((if dict_truthy attrs
             then ({["@attributes" := VDict (VStr <$> attrs)]}
                     : gmap string value)
             else ∅) !! "#text" = None) as Hr.
    { destruct (dict_truthy attrs);
        [by rewrite lookup_singleton_ne | apply lookup_empty]. }
    revert Hd. repeat case_match; intros [= <-]; try done;
      by apply lookup_union_None_2.
  - intros -> ->. split; reflexivity.
Qed.

Lemma C4_blank_text_is_absent_witness :
  _xml_to_dict (mkElement "a" ∅ (Some "   ") []) = VNone
  ∧ _xml_to_dict (mkElement "a" ∅ (Some "   ") [])
    = _xml_to_dict (mkElement "a" ∅ None []).
Proof.
  destruct (C4_blank_text_is_absent (mkElement "a" ∅ (Some "   ") []) "   ")
    as (_ & _ & _ & H); [reflexivity | vm_compute; reflexivity |].
  apply H; reflexivity.
Defined.

(** ** Facts about the decoder and the client *)

(** Unfold the monad down to pairs of a result and a world. *)
Ltac run :=
  unfold try_except, get_ops_client, set_ops_client, raise, error_envelope,
         mbind, M_bind, mret, M_ret in *;
  cbn beta iota zeta in *.

Section ServerFacts.

Context (rt : runtime).

Implicit Types (self : OPSClient) (w : world) (r : response).

Lemma startswith_prefix s p :
  PyStr.startswith s p = true ↔ ∃ rest, s = p +:+ rest.
Proof.
  unfold PyStr.startswith. revert s.
  induction p as [|a p IH]; intros s.
  - split; [intros _; by exists s | intros _; by destruct s].
  - destruct s as [|b s].
    + split; [discriminate | intros [rest Hr]; discriminate Hr].
    + change (String.prefix (String a p) (String b s))
        with (if Ascii.ascii_dec a b then String.prefix p s else false).
      change (λ rest, String b s = String a p +:+ rest)
        with (λ rest, String b s = String a (p +:+ rest)).
      destruct (Ascii.ascii_dec a b) as [->|Hab].
      * rewrite IH. split; intros [rest Hr]; exists rest; congruence.
      * split; [discriminate|]. intros [rest Hr]. congruence.
Qed.

(** A request that is answered with a 2xx status: [make_request] returns
    the decoded body, and the world has the request appended. *)
Lemma make_request_success self endpoint params w r :
  network rt (requests w)
    (GET (OPS_BASE_URL +:+ endpoint) (headers self) (or_empty params))
  = Responds r →
  is_success r = true →
  make_request rt self endpoint params w =
  (Return (if PyStr.startswith (default "" (content_type r)) "application/xml"
           then _parse_xml_response rt (response_text r)
           else VDict {["raw_content" := VStr (response_text r)]}),
   mkWorld (ops_client w) (live_clients w)
     (requests w ++ [GET (OPS_BASE_URL +:+ endpoint) (headers self)
                         (or_empty params)])).
Proof.
  intros Hnet Hok. unfold make_request, send, raise_for_status. run.
  rewrite Hnet, Hok. by destruct (PyStr.startswith _ _).
Qed.

(** Whatever happens, [make_request] sends exactly one request. *)
Lemma make_request_sends self endpoint params w :
  requests (make_request rt self endpoint params w).2 =
  requests w ++ [GET (OPS_BASE_URL +:+ endpoint) (headers self)
                     (or_empty params)].
Proof.
  unfold make_request, send, raise_for_status. run.
  destruct (network rt _ _) as [e|r]; simpl.
  - by destruct (is_HTTPError e).
  - destruct (is_success r); simpl; [by destruct (PyStr.startswith _ _)|done].
Qed.

(** The normalizer returns a string, [None] or a dictionary. *)
Lemma _xml_to_dict_shape (e : Element) :
  match _xml_to_dict e with
  | VStr _ | VNone | VDict _ => True
  | _ => False
  end.
Proof.
  destruct e as [tg attrs txt kids]. rewrite _xml_to_dict_eq. cbv zeta.
  repeat case_match; done.
Qed.

(** [_parse_xml_response] always returns a dictionary. *)
Lemma _parse_xml_response_dict xml_content :
  ∃ d, _parse_xml_response rt xml_content = VDict d.
Proof.
  unfold _parse_xml_response. destruct (fromstring rt xml_content) as [root|].
  - pose proof (_xml_to_dict_shape root) as Hs.
    destruct (_xml_to_dict root); try done; eauto.
  - eauto.
Qed.

(** [get_auth_token], case by case. *)
Lemma get_auth_token_eq self key secret w :
  get_auth_token rt self key secret w =
  (match network rt (requests w) (token_request key secret) with
   | Raises e =>
       if is_HTTPError e
       then Raise (OPSError ("Erreur d'authentification: " +:+ exn_str e))
       else Raise e
   | Responds r =>
       if is_success r
       then match json_loads rt (response_text r) with
            | inl msg => Raise (JSONDecodeError msg)
            | inr (VDict d) =>
                match d !! "access_token" with
                | Some x => Return x
                | None => Raise (KeyError "access_token")
                end
            | inr v => Raise (TypeError (getitem_error_message rt v))
            end
       else Raise (OPSError ("Erreur d'authentification: "
                             +:+ status_error_message rt auth_url r))
   end,
   mkWorld (ops_client w) (live_clients w)
           (requests w ++ [token_request key secret])).
Proof.
  unfold get_auth_token, send, raise_for_status, json, getitem. run.
  destruct (network rt _ _) as [e|r]; simpl.
  - by destruct (is_HTTPError e).
  - destruct (is_success r); simpl; [|done].
    destruct (json_loads rt _) as [msg|[]]; simpl; try done.
    by destruct (_ !! _).
Qed.

(** An authentication whose token exchange raises returns the error
    text and leaves the client created before the exchange in
    [ops_client]. *)
Lemma authenticate_with_failure key secret ok w e :
  (get_auth_token rt bare_client key secret
     (mkWorld (Some bare_client) (S (live_clients w)) (requests w))).1
  = Raise e →
  authenticate_with rt key secret ok w =
  (Return (VStr ("Erreur d'authentification: " +:+ exn_str e)),
   mkWorld (Some bare_client) (S (live_clients w))
           (requests w ++ [token_request key secret])).
Proof.
  intros He. unfold authenticate_with, OPSClient_init, __aexit__. run.
  simpl. fold bare_client.
  rewrite get_auth_token_eq in He |- *. simpl in *. by rewrite He.
Qed.

(** A tool that passes the guard sends one [GET] with the headers of the
    client in [ops_client]. *)
Lemma fetch_sends_request (c : tool_call) w self :
  fetches c = true →
  ops_client w = Some self →
  ∃ url params,
    requests (call_tool rt c w).2 = requests w ++ [GET url (headers self) params].
Proof.
  intros Hf Hc.
  destruct c; try discriminate Hf; simpl;
    unfold search_patents, get_patent_biblio, get_patent_abstract,
      get_patent_claims, get_patent_description, get_patent_equivalents,
      get_patent_family, get_legal_data, search_register_data,
      get_cpc_classification, convert_patent_number;
    run; rewrite Hc;
    match goal with
    | |- context [make_request rt self ?ep ?ps w] =>
        pose proof (make_request_sends self ep ps w) as Hs;
        destruct (make_request rt self ep ps w) as [[data|e] w'];
        simpl in *; eauto
    end.
Qed.

(** A tool called while [ops_client] is [None] returns the fixed
    envelope and leaves the world as it is: nothing is sent. *)
Lemma guard_unauthenticated (c : tool_call) w :
  fetches c = true →
  ops_client w = None →
  call_tool rt c w = (Return NOT_AUTHENTICATED, w).
Proof.
  intros Hf Hc.
  destruct c; try discriminate Hf; simpl;
    unfold search_patents, get_patent_biblio, get_patent_abstract,
      get_patent_claims, get_patent_description, get_patent_equivalents,
      get_patent_family, get_legal_data, search_register_data,
      get_cpc_classification, convert_patent_number;
    run; by rewrite Hc.
Qed.

(** After an authentication whose token exchange raised, a fetching
    tool is not stopped by the guard: the requests sent are the token
    exchange followed by the tool's [GET], with the headers of the
    client that holds no token. *)
Lemma failed_authentication_opens_guard key secret w e (c : tool_call) :
  (get_auth_token rt bare_client key secret
     (mkWorld (Some bare_client) (S (live_clients w)) (requests w))).1
  = Raise e →
  fetches c = true →
  ∃ url params,
    requests (call_tool rt c (authenticate_ops rt key secret w).2).2
    = requests w ++ [token_request key secret;
                     GET url (headers bare_client) params].
Proof.
  intros He Hf. unfold authenticate_ops.
  rewrite (authenticate_with_failure key secret _ w e He).
  destruct (fetch_sends_request c
              (mkWorld (Some bare_client) (S (live_clients w))
                 (requests w ++ [token_request key secret]))
              bare_client Hf eq_refl) as (url & params & Hs).
  exists url, params. cbn [snd] in *. rewrite Hs. cbn [requests].
  by rewrite <- app_assoc.
Qed.

End ServerFacts.

(** ** Properties of the decoder, the client and the tools *)

(** C5: when the service answers with a 2xx status, a body declared
    [application/xml...] that the parser rejects is returned as
    [{"raw_xml": body}], a body with any other declared type is returned
    as [{"raw_content": body}], and in every case a dictionary is
    returned: a parse failure is not raised. *)
Theorem C5_decoder_fallbacks (rt : runtime) (self : OPSClient)
    (endpoint : string) (params : option (gmap string string)) (w : world)
    (r : response) :
  network rt (requests w)
    (GET (OPS_BASE_URL +:+ endpoint) (headers self) (or_empty params))
  = Responds r →
  is_success r = true →
  (PyStr.startswith (default "" (content_type r)) "application/xml" = true →
   fromstring rt (response_text r) = None →
   (make_request rt self endpoint params w).1
   = Return (VDict {["raw_xml" := VStr (response_text r)]}))
  ∧ (PyStr.startswith (default "" (content_type r)) "application/xml" = false →
     (make_request rt self endpoint params w).1
     = Return (VDict {["raw_content" := VStr (response_text r)]}))
  ∧ (∃ d, (make_request rt self endpoint params w).1 = Return (VDict d)).
Proof.
  intros Hnet Hok. rewrite (make_request_success rt _ _ _ _ _ Hnet Hok). simpl.
  split; [|split].
  - intros -> Hp. unfold _parse_xml_response. by rewrite Hp.
  - by intros ->.
  - destruct (PyStr.startswith _ _); [|eauto].
    destruct (_parse_xml_response_dict rt (response_text r)) as [d ->]. eauto.
Qed.

Lemma C5_decoder_fallbacks_witness :
  (make_request
     (sample_runtime (answers (mkResponse 200 (Some "application/xml") "<a>")))
     bare_client "/published-data/search" None initial).1
  = Return (VDict {["raw_xml" := VStr "<a>"]}).
Proof.
  destruct (C5_decoder_fallbacks
              (sample_runtime
                 (answers (mkResponse 200 (Some "application/xml") "<a>")))
              bare_client "/published-data/search" None initial
              (mkResponse 200 (Some "application/xml") "<a>"))
    as [H _]; [reflexivity | reflexivity |].
  apply H; reflexivity.
Defined.

(** C6 (at the input where the code departs from it): on a fresh server
    a fetching tool returns the fixed envelope and sends nothing; after
    an authentication whose token exchange was answered with 401, the
    same call is no longer stopped by the guard: it sends a [GET]
    without an [Authorization] header and returns another envelope. *)
Theorem C6_guard_open_after_failed_authentication :
  let rt := sample_runtime (answers unauthorized) in
  let w1 := (authenticate_ops rt "key" "secret" initial).2 in
  search_patents rt "ti=solar" "biblio" "1-25" initial
  = (Return NOT_AUTHENTICATED, initial)
  ∧ (authenticate_ops rt "key" "secret" initial).1
    = Return (VStr ("Erreur d'authentification: Erreur d'authentification: "
                    +:+ "Client error '401 Unauthorized' for url '"
                    +:+ auth_url +:+ "'"))
  ∧ ops_client w1 = Some bare_client
  ∧ (search_patents rt "ti=solar" "biblio" "1-25" w1).1
    ≠ Return NOT_AUTHENTICATED
  ∧ requests (search_patents rt "ti=solar" "biblio" "1-25" w1).2
    = [token_request "key" "secret";
       GET (OPS_BASE_URL +:+ "/published-data/search")
           (<["Accept" := "application/xml"]>
              (<["User-Agent" := USER_AGENT]> ∅))
           (<["Range" := "1-25"]> (<["q" := "ti=solar"]> ∅))].
Proof.
  cbv zeta. split; [reflexivity|]. split; [vm_compute; reflexivity|].
  split; [vm_compute; reflexivity|]. split; [|vm_compute; reflexivity].
  vm_compute. discriminate.
Qed.

(** C7: when the token exchange fails in transport or is answered with
    a status outside 2xx, [get_auth_token] raises an [OPSError] whose
    message is the fixed prefix followed by the text of the underlying
    error, and after [authenticate_ops] the client in [ops_client] holds
    no token and no [Authorization] header. *)
Theorem C7_failed_exchange_raises_and_stores_nothing (rt : runtime)
    (w : world) (consumer_key consumer_secret : string) (cause : exn) :
  (network rt (requests w) (token_request consumer_key consumer_secret)
   = Raises cause ∧ is_HTTPError cause = true)
  ∨ (∃ r, network rt (requests w) (token_request consumer_key consumer_secret)
          = Responds r
          ∧ is_success r = false
          ∧ cause = HTTPStatusError (status_code r)
                      (status_error_message rt auth_url r)) →
  (∀ self, (get_auth_token rt self consumer_key consumer_secret w).1
           = Raise (OPSError ("Erreur d'authentification: "
                              +:+ exn_str cause)))
  ∧ (∃ c, ops_client (authenticate_ops rt consumer_key consumer_secret w).2
          = Some c
          ∧ access_token c = VNone
          ∧ headers c !! "Authorization" = None).
Proof.
  intros Hfail.
  assert (∀ self w', requests w' = requests w →
            (get_auth_token rt self consumer_key consumer_secret w').1
            = Raise (OPSError ("Erreur d'authentification: "
                               +:+ exn_str cause))) as Hraise.
  { intros self w' Hw'. rewrite get_auth_token_eq, Hw'. simpl.
    destruct Hfail as [[-> Hc]|(r & -> & Hr & ->)].
    - by rewrite Hc.
    - by rewrite Hr. }
  split; [intros self; by apply Hraise|].
  unfold authenticate_ops.
  rewrite (authenticate_with_failure rt consumer_key consumer_secret _ w _
             (Hraise bare_client
                (mkWorld (Some bare_client) (S (live_clients w)) (requests w))
                eq_refl)).
  exists bare_client. simpl. split; [done|]. split; [done|].
  vm_compute. reflexivity.
Qed.

Lemma C7_failed_exchange_raises_and_stores_nothing_witness :
  (get_auth_token (sample_runtime (answers unauthorized)) bare_client
     "key" "secret" initial).1
  = Raise (OPSError ("Erreur d'authentification: "
                     +:+ "Client error '401 Unauthorized' for url '"
                     +:+ auth_url +:+ "'")).
Proof.
  destruct (C7_failed_exchange_raises_and_stores_nothing
              (sample_runtime (answers unauthorized)) initial "key" "secret"
              (HTTPStatusError 401
                 ("Client error '401 Unauthorized' for url '"
                  +:+ auth_url +:+ "'"))) as [H _].
  - right. exists unauthorized. repeat split; reflexivity.
  - apply H.
Defined.





(** C9: the decoder takes the XML branch exactly when the declared
    content type starts with the bytes of ["application/xml"].  A
    response declared with any other spelling, such as ["text/xml"] or
    ["Application/XML"], is returned as [{"raw_content": body}] whatever
    the parser would make of the body; a declared type with the prefix
    goes to the parser. *)
Theorem C9_xml_dispatch_is_exact_prefix (rt : runtime) (self : OPSClient)
    (endpoint : string) (params : option (gmap string string)) (w : world)
    (r : response) :
  network rt (requests w)
    (GET (OPS_BASE_URL +:+ endpoint) (headers self) (or_empty params))
  = Responds r →
  is_success r = true →
  ((content_type r = Some "text/xml"
    ∨ content_type r = Some "Application/XML"
    ∨ ¬ (∃ rest, default "" (content_type r) = "application/xml" +:+ rest)) →
   (make_request rt self endpoint params w).1
   = Return (VDict {["raw_content" := VStr (response_text r)]}))
  ∧ (∀ rest, content_type r = Some ("application/xml" +:+ rest) →
       (make_request rt self endpoint params w).1
       = Return (_parse_xml_response rt (response_text r))).
Proof.
  intros Hnet Hok. rewrite (make_request_success rt _ _ _ _ _ Hnet Hok). simpl.
  split.
  - intros [->|[->|Hno]]; [reflexivity | reflexivity |].
    destruct (PyStr.startswith _ _) eqn:E; [|done].
    apply startswith_prefix in E. contradiction.
  - intros rest Hct.
    assert (PyStr.startswith (default "" (content_type r)) "application/xml"
            = true) as ->; [|done].
    apply startswith_prefix. exists rest. by rewrite Hct.
Qed.

Lemma C9_xml_dispatch_is_exact_prefix_witness :
  (make_request
     (sample_runtime (answers (mkResponse 200 (Some "text/xml") "<e/>")))
     bare_client "/published-data/search" None initial).1
  = Return (VDict {["raw_content" := VStr "<e/>"]}).
Proof.
  destruct (C9_xml_dispatch_is_exact_prefix
              (sample_runtime (answers (mkResponse 200 (Some "text/xml") "<e/>")))
              bare_client "/published-data/search" None initial
              (mkResponse 200 (Some "text/xml") "<e/>"))
    as [H _]; [reflexivity | reflexivity |].
  apply H. left. reflexivity.
Defined.

(** C10: when the exchange is answered with a 2xx status and the body
    is not JSON or has no ["access_token"], [get_auth_token] raises the
    error of the decoding or of the subscript as it is: a
    [JSONDecodeError], a [KeyError] or a [TypeError], not an
    [OPSError]. *)
Theorem C10_malformed_token_body_not_wrapped (rt : runtime) (self : OPSClient)
    (consumer_key consumer_secret : string) (w : world) (r : response) :
  network rt (requests w) (token_request consumer_key consumer_secret)
  = Responds r →
  is_success r = true →
  has_access_token (json_loads rt (response_text r)) = false →
  ∃ e, (get_auth_token rt self consumer_key consumer_secret w).1 = Raise e
       ∧ is_OPSError e = false
       ∧ e = match json_loads rt (response_text r) with
             | inl msg => JSONDecodeError msg
             | inr (VDict _) => KeyError "access_token"
             | inr v => TypeError (getitem_error_message rt v)
             end.
Proof.
  intros Hnet Hok Hno. rewrite get_auth_token_eq, Hnet, Hok. simpl.
  destruct (json_loads rt (response_text r)) as [msg|[]]; simpl in *; eauto.
  destruct (_ !! _); [discriminate|eauto].
Qed.

Lemma C10_malformed_token_body_not_wrapped_witness :
  (get_auth_token
     (sample_runtime (answers (mkResponse 200 (Some "application/json") "{}")))
     bare_client "key" "secret" initial).1
  = Raise (KeyError "access_token").
Proof.
  destruct (C10_malformed_token_body_not_wrapped
              (sample_runtime
                 (answers (mkResponse 200 (Some "application/json") "{}")))
              bare_client "key" "secret" initial
              (mkResponse 200 (Some "application/json") "{}"))
    as (e & -> & _ & ->); reflexivity.
Defined.

(** ** Further properties of the normalizer *)

Section NormalizerShape.

Implicit Types (e c : Element) (kids : list Element) (t k : string).

(** Induction over an element with the property known for its
    children. *)
Lemma Element_children_ind (P : Element → Prop) :
  (∀ tg attrs txt kids, Forall P kids → P (mkElement tg attrs txt kids)) →
  ∀ e, P e.
Proof.
  intros Hstep. fix IH 1. intros [tg attrs txt kids]. apply Hstep.
  induction kids as [|c kids IHkids]; constructor; [apply IH | exact IHkids].
Qed.

(** Away from the leaf short-circuit the result is the union of the
    children's entries and the element's own, or [None] if that is
    empty. *)
Lemma _xml_to_dict_union tg attrs txt kids :
  (text_nonblank txt && (length kids =? 0)%nat) = false →
  _xml_to_dict (mkElement tg attrs txt kids) =
  if dict_truthy (collect kids ∪ own_entries attrs txt)
  then VDict (collect kids ∪ own_entries attrs txt)
  else VNone.
Proof.
  intros Hleaf. rewrite _xml_to_dict_eq. cbv zeta. rewrite Hleaf.
  fold (own_entries attrs txt).
  destruct (dict_truthy (collect kids)) eqn:E; [done|].
  apply dict_truthy_false in E. rewrite E. by rewrite (left_id_L ∅ (∪)).
Qed.

Lemma tagged_nonempty_iff t kids :
  tagged t kids ≠ [] ↔ ∃ c, c ∈ kids ∧ tag c = t.
Proof.
  split.
  - intros Hne. unfold tagged in Hne.
    destruct (filter (λ c, tag c = t) kids) as [|c l] eqn:E; [done|].
    assert (c ∈ filter (λ c, tag c = t) kids) as Hc by (rewrite E; left).
    apply list_elem_of_filter in Hc as [Ht Hc]. eauto.
  - intros (c & Hc & Ht) Hnil. unfold tagged in Hnil.
    apply fmap_nil_inv in Hnil.
    assert (c ∈ filter (λ c, tag c = t) kids) as Hin
      by (by apply list_elem_of_filter).
    rewrite Hnil in Hin. by apply not_elem_of_nil in Hin.
Qed.

Lemma collect_is_Some t kids :
  is_Some (collect kids !! t) ↔ ∃ c, c ∈ kids ∧ tag c = t.
Proof.
  rewrite collect_lookup, <- tagged_nonempty_iff.
  destruct (tagged t kids) as [|v [|v' l]]; simpl; split; try done;
    first [by intros [x Hx] | by eexists].
Qed.


Lemma own_entries_lookup attrs txt k :
  own_entries attrs txt !! k =
  if decide (k = "#text")
  then (if text_nonblank txt then Some (VStr (stripped txt)) else None)
  else if decide (k = "@attributes")
       then (if dict_truthy attrs then Some (VDict (VStr <$> attrs)) else None)
       else None.
Proof.
  unfold own_entries.
  destruct (text_nonblank txt), (dict_truthy attrs);
    repeat case_decide; subst; simplify_map_eq; done.
Qed.


Lemma dict_truthy_true {A} (m : gmap string A) :
  dict_truthy m = true ↔ m ≠ ∅.
Proof.
  destruct (dict_truthy m) eqn:E.
  - split; [|done]. intros _ ->. by rewrite dict_truthy_empty in E.
  - apply dict_truthy_false in E. split; [done|]. by intros [].
Qed.

Lemma own_entries_is_Some attrs txt k :
  is_Some (own_entries attrs txt !! k)
  ↔ (k = "@attributes" ∧ attrs ≠ ∅)
    ∨ (k = "#text" ∧ text_nonblank txt = true).
Proof.
  rewrite own_entries_lookup, <- dict_truthy_true.
  repeat case_decide; subst;
    destruct (text_nonblank txt), (dict_truthy attrs);
    split; try (intros [x Hx]; discriminate Hx);
    try (intros [[? ?]|[? ?]]; done); intros _;
    first [by eexists | by left | by right].
Qed.

End NormalizerShape.


(** X2: the keys of a normalized dictionary are exactly the tags of the
    children, ["@attributes"] when the element has attributes and
    ["#text"] when it has non-blank text. *)
Theorem normalize_keys (e : Element) (d : gmap string value) (k : string) :
  _xml_to_dict e = VDict d →
  (is_Some (d !! k)
   ↔ (∃ c, c ∈ children e ∧ tag c = k)
     ∨ (k = "@attributes" ∧ attrib e ≠ ∅)
     ∨ (k = "#text" ∧ text_nonblank (text e) = true)).
Proof.
  destruct e as [tg attrs txt kids]. fields.
  destruct (text_nonblank txt && (length kids =? 0)%nat) eqn:Hleaf.
  { rewrite _xml_to_dict_eq. cbv zeta. by rewrite Hleaf. }
  rewrite (_xml_to_dict_union _ _ _ _ Hleaf).
  destruct (dict_truthy _); [|done]. intros [= <-].
  rewrite lookup_union_is_Some, collect_is_Some, own_entries_is_Some. tauto.
Qed.

Lemma normalize_keys_witness :
  is_Some (({["b" := VNone]} : gmap string value) !! "b")
  ↔ (∃ c, c ∈ [mkElement "b" ∅ None []] ∧ tag c = "b")
    ∨ ("b" = "@attributes" ∧ (∅ : gmap string string) ≠ ∅)
    ∨ ("b" = "#text" ∧ text_nonblank None = true).
Proof.
  apply (normalize_keys (mkElement "a" ∅ None [mkElement "b" ∅ None []])
           {["b" := VNone]} "b").
  vm_compute. reflexivity.
Defined.

(** X3: what a normalized dictionary holds under any key: the values of
    the children with that tag if there are any, and otherwise the
    element's own entry (attributes under ["@attributes"], trimmed text
    under ["#text"]).  A child tagged with one of the two reserved keys
    therefore replaces the element's own entry. *)
Theorem normalize_lookup (e : Element) (d : gmap string value) (k : string) :
  _xml_to_dict e = VDict d →
  d !! k = match grouped (tagged k (children e)) with
           | Some v => Some v
           | None => own_entries (attrib e) (text e) !! k
           end.
Proof.
  destruct e as [tg attrs txt kids]. fields.
  destruct (text_nonblank txt && (length kids =? 0)%nat) eqn:Hleaf.
  { rewrite _xml_to_dict_eq. cbv zeta. by rewrite Hleaf. }
  rewrite (_xml_to_dict_union _ _ _ _ Hleaf).
  destruct (dict_truthy _); [|done]. intros [= <-].
  rewrite lookup_union, collect_lookup.
  destruct (grouped (tagged k kids)), (own_entries attrs txt !! k); done.
Qed.

Lemma normalize_lookup_witness :
  ∃ d, _xml_to_dict (mkElement "a" {["id" := "1"]} None
                       [mkElement "@attributes" ∅ (Some "x") []]) = VDict d
       ∧ d !! "@attributes" = Some (VStr "x").
Proof.
  eexists. split; [vm_compute; reflexivity|].
  rewrite (normalize_lookup
             (mkElement "a" {["id" := "1"]} None
                [mkElement "@attributes" ∅ (Some "x") []])
             _ "@attributes"); [|vm_compute; reflexivity].
  vm_compute. reflexivity.
Defined.

Section NormalizerOrder.

Implicit Types (a b c : Element) (kids : list Element) (t : string).

Lemma tagged_app t kids1 kids2 :
  tagged t (kids1 ++ kids2) = tagged t kids1 ++ tagged t kids2.
Proof. unfold tagged. by rewrite filter_app, fmap_app. Qed.

Lemma tagged_swap t a b :
  tag a ≠ tag b → tagged t [a; b] = tagged t [b; a].
Proof.
  intros Hab. unfold tagged. rewrite !filter_cons, !filter_nil.
  repeat case_decide; try done. congruence.
Qed.

Lemma collect_swap kids1 a b kids2 :
  tag a ≠ tag b →
  collect (kids1 ++ a :: b :: kids2) = collect (kids1 ++ b :: a :: kids2).
Proof.
  intros Hab. apply map_eq. intros t. rewrite !collect_lookup.
  change (a :: b :: kids2) with ([a; b] ++ kids2).
  change (b :: a :: kids2) with ([b; a] ++ kids2).
  by rewrite !tagged_app, (tagged_swap t a b Hab).
Qed.

End NormalizerOrder.

(** X4: the order of two neighbouring children with different tags does
    not show in the result: swapping them gives the same value (as
    Python compares dictionaries).  Only the order among children of one
    tag is kept. *)
Theorem normalize_forgets_order_across_tags (tg : string)
    (attrs : gmap string string) (txt : option string)
    (kids1 kids2 : list Element) (a b : Element) :
  tag a ≠ tag b →
  _xml_to_dict (mkElement tg attrs txt (kids1 ++ a :: b :: kids2))
  = _xml_to_dict (mkElement tg attrs txt (kids1 ++ b :: a :: kids2)).
Proof.
  intros Hab. rewrite !_xml_to_dict_eq. cbv zeta.
  rewrite (collect_swap kids1 a b kids2 Hab).
  by rewrite !length_app.
Qed.

Lemma normalize_forgets_order_across_tags_witness :
  _xml_to_dict (mkElement "r" ∅ None
                  [mkElement "a" ∅ (Some "1") []; mkElement "b" ∅ None []])
  = _xml_to_dict (mkElement "r" ∅ None
                    [mkElement "b" ∅ None []; mkElement "a" ∅ (Some "1") []]).
Proof.
  apply (normalize_forgets_order_across_tags "r" ∅ None [] []
           (mkElement "a" ∅ (Some "1") []) (mkElement "b" ∅ None [])).
  vm_compute. discriminate.
Defined.

(** X5: every value the normalizer returns is canonical, at every depth:
    no dictionary in it is empty, a list occurs only as the entry of a
    dictionary, has at least two members, and no member is a list. *)
Theorem normalize_canonical (e : Element) : canonical (_xml_to_dict e).
Proof.
  induction e as [tg attrs txt kids IH] using Element_children_ind.
  destruct (text_nonblank txt && (length kids =? 0)%nat) eqn:Hleaf.
  { rewrite _xml_to_dict_eq. cbv zeta. rewrite Hleaf. constructor. }
  rewrite (_xml_to_dict_union _ _ _ _ Hleaf).
  destruct (dict_truthy _) eqn:E; [|constructor].
  apply canonical_Dict; [by apply dict_truthy_true|].
  intros k x Hx. apply lookup_union_Some_raw in Hx as [Hx|[_ Hx]].
  - rewrite collect_lookup in Hx.
    assert (Forall canonical (tagged k kids)) as Hk.
    { unfold tagged. apply Forall_fmap, Forall_forall. intros c Hc.
      apply list_elem_of_filter in Hc as [_ Hc].
      by apply (proj1 (Forall_forall _ _) IH). }
    destruct (tagged k kids) as [|v [|v' l]] eqn:Et; simplify_eq/=.
    + apply Forall_cons in Hk as [Hv _]. by apply entry_single.
    + apply entry_group; [simpl; lia|done].
  - rewrite own_entries_lookup in Hx.
    repeat case_decide; repeat case_match; simplify_eq;
      apply entry_single; [constructor|].
    apply canonical_Dict.
    + intros H0. apply fmap_empty_inv in H0. subst attrs.
      by rewrite dict_truthy_empty in *.
    + intros k' x' Hx'. apply lookup_fmap_Some in Hx' as (s & <- & _).
      apply entry_single. constructor.
Qed.

(** ** Further properties of the decoder and the client *)

Section ClientFacts.

Context (rt : runtime).

Implicit Types (self : OPSClient) (w : world) (r : response) (c : tool_call).

Lemma OPSClient_init_eq token w :
  OPSClient_init rt token w =
  (Return (init_client rt token),
   mkWorld (ops_client w) (S (live_clients w)) (requests w)).
Proof. reflexivity. Qed.

(** [make_request], case by case. *)
Lemma make_request_eq self endpoint params w :
  make_request rt self endpoint params w =
  (match network rt (requests w)
           (GET (OPS_BASE_URL +:+ endpoint) (headers self) (or_empty params))
   with
   | Raises e =>
       if is_HTTPError e
       then Raise (OPSError ("Erreur de requête vers "
                             +:+ (OPS_BASE_URL +:+ endpoint) +:+ ": "
                             +:+ exn_str e))
       else Raise e
   | Responds r =>
       if is_success r
       then Return
              (if PyStr.startswith (default "" (content_type r))
                    "application/xml"
               then _parse_xml_response rt (response_text r)
               else VDict {["raw_content" := VStr (response_text r)]})
       else Raise (OPSError ("Erreur de requête vers "
                             +:+ (OPS_BASE_URL +:+ endpoint) +:+ ": "
                             +:+ status_error_message rt
                                   (OPS_BASE_URL +:+ endpoint) r))
   end,
   mkWorld (ops_client w) (live_clients w)
     (requests w ++ [GET (OPS_BASE_URL +:+ endpoint) (headers self)
                         (or_empty params)])).
Proof.
  unfold make_request, send, raise_for_status. run.
  destruct (network rt _ _) as [e|r]; simpl.
  - by destruct (is_HTTPError e).
  - destruct (is_success r); simpl; [by destruct (PyStr.startswith _ _)|done].
Qed.

(** The authentication tools, by the outcome of the token exchange. *)
Lemma authenticate_with_eq key secret ok w :
  authenticate_with rt key secret ok w =
  (match (get_auth_token rt bare_client key secret w).1 with
   | Return token => Return (VStr ok)
   | Raise e => Return (VStr ("Erreur d'authentification: " +:+ exn_str e))
   end,
   mkWorld
     (Some (match (get_auth_token rt bare_client key secret w).1 with
            | Return token => init_client rt token
            | Raise e => bare_client
            end))
     (S (live_clients w))
     (requests w ++ [token_request key secret])).
Proof.
  unfold authenticate_with, OPSClient_init, __aexit__. run. simpl.
  fold bare_client. rewrite !get_auth_token_eq. simpl.
  destruct (match network rt _ _ with Raises _ => _ | Responds _ => _ end);
    reflexivity.
Qed.

(** A fetching tool is [fetch_with]. *)
Lemma call_tool_fetch_with c : fetches c = true → call_tool rt c = fetch_with rt c.
Proof. intros Hf. destruct c; try discriminate Hf; reflexivity. Qed.

Lemma fetch_with_eq c w self :
  ops_client w = Some self →
  fetch_with rt c w =
  (match (make_request rt self (tool_endpoint c) (tool_params c) w).1 with
   | Return data => Return (VDict (<[result_key c := data]> (echoed c)))
   | Raise e => Return (VDict {["error" := VStr (exn_str e)]})
   end,
   mkWorld (ops_client w) (live_clients w) (requests w ++ [tool_request self c])).
Proof.
  intros Hc. unfold fetch_with. run. rewrite Hc.
  rewrite make_request_eq. simpl. unfold tool_request.
  destruct (match network rt _ _ with Raises _ => _ | Responds _ => _ end);
    rewrite ?Hc; reflexivity.
Qed.

Lemma fetch_with_guard c w :
  ops_client w = None → fetch_with rt c w = (Return NOT_AUTHENTICATED, w).
Proof. intros Hc. unfold fetch_with. run. by rewrite Hc. Qed.

End ClientFacts.



(** X7: when the [GET] fails in transport or is answered with a status
    outside 2xx, [make_request] raises an [OPSError] whose message names
    the URL and ends with the text of the underlying error. *)
Theorem make_request_wraps_http_errors (rt : runtime) (self : OPSClient)
    (endpoint : string) (params : option (gmap string string)) (w : world)
    (cause : exn) :
  (network rt (requests w)
     (GET (OPS_BASE_URL +:+ endpoint) (headers self) (or_empty params))
   = Raises cause ∧ is_HTTPError cause = true)
  ∨ (∃ r, network rt (requests w)
            (GET (OPS_BASE_URL +:+ endpoint) (headers self) (or_empty params))
          = Responds r
          ∧ is_success r = false
          ∧ cause = HTTPStatusError (status_code r)
                      (status_error_message rt (OPS_BASE_URL +:+ endpoint) r)) →
  (make_request rt self endpoint params w).1
  = Raise (OPSError ("Erreur de requête vers " +:+ (OPS_BASE_URL +:+ endpoint)
                     +:+ ": " +:+ exn_str cause)).
Proof.
  intros Hfail. rewrite make_request_eq. simpl.
  destruct Hfail as [[-> Hc]|(r & -> & Hr & ->)].
  - by rewrite Hc.
  - by rewrite Hr.
Qed.

Lemma make_request_wraps_http_errors_witness :
  (make_request (sample_runtime unreachable) bare_client "/legal/x" None
     initial).1
  = Raise (OPSError ("Erreur de requête vers " +:+ (OPS_BASE_URL +:+ "/legal/x")
                     +:+ ": All connection attempts failed")).
Proof.
  apply (make_request_wraps_http_errors (sample_runtime unreachable)
           bare_client "/legal/x" None initial
           (TransportError "All connection attempts failed")).
  left. split; reflexivity.
Defined.

(** X8: [make_request] never lets an [httpx.HTTPError] out, passes any
    other exception of the transport on unchanged, leaves [ops_client]
    alone, and sends exactly one request: the [GET] of the base URL
    followed by the endpoint, with the client's headers. *)
Theorem make_request_effects (rt : runtime) (self : OPSClient)
    (endpoint : string) (params : option (gmap string string)) (w : world) :
  (∀ e, (make_request rt self endpoint params w).1 = Raise e →
        is_HTTPError e = false)
  ∧ (∀ e, network rt (requests w)
            (GET (OPS_BASE_URL +:+ endpoint) (headers self) (or_empty params))
          = Raises e →
          is_HTTPError e = false →
          (make_request rt self endpoint params w).1 = Raise e)
  ∧ (make_request rt self endpoint params w).2
    = mkWorld (ops_client w) (live_clients w)
        (requests w ++ [GET (OPS_BASE_URL +:+ endpoint) (headers self)
                            (or_empty params)]).
Proof.
  rewrite make_request_eq. simpl. split; [|split; [|done]].
  - intros e. destruct (network rt _ _) as [e'|r].
    + destruct (is_HTTPError e') eqn:E; intros [= <-]; done.
    + destruct (is_success r); intros [= <-]; done.
  - intros e -> He. by rewrite He.
Qed.

(** X9: when the exchange is answered with a 2xx status and the decoded
    body is an object with an ["access_token"], [get_auth_token] returns
    the value of that field as it is, string or not. *)
Theorem get_auth_token_returns_field (rt : runtime) (self : OPSClient)
    (consumer_key consumer_secret : string) (w : world) (r : response)
    (d : gmap string value) (token : value) :
  network rt (requests w) (token_request consumer_key consumer_secret)
  = Responds r →
  is_success r = true →
  json_loads rt (response_text r) = inr (VDict d) →
  d !! "access_token" = Some token →
  (get_auth_token rt self consumer_key consumer_secret w).1 = Return token.
Proof.
  intros Hnet Hok Hjson Htok.
  by rewrite get_auth_token_eq, Hnet, Hok, Hjson, Htok.
Qed.

Lemma get_auth_token_returns_field_witness :
  (get_auth_token (token_runtime (VInt 7) (answers token_answer)) bare_client
     "key" "secret" initial).1
  = Return (VInt 7).
Proof.
  apply (get_auth_token_returns_field
           (token_runtime (VInt 7) (answers token_answer)) bare_client
           "key" "secret" initial token_answer
           {["access_token" := VInt 7]} (VInt 7)); reflexivity.
Defined.

(** X10: whatever the outcome, [get_auth_token] sends exactly one
    request, the [POST] of the token URL with the key and the secret as
    basic authentication and the client-credentials grant as form data,
    and changes nothing else. *)
Theorem get_auth_token_effects (rt : runtime) (self : OPSClient)
    (consumer_key consumer_secret : string) (w : world) :
  (get_auth_token rt self consumer_key consumer_secret w).2
  = mkWorld (ops_client w) (live_clients w)
      (requests w
       ++ [POST "https://ops.epo.org/3.2/auth/accesstoken"
                (consumer_key, consumer_secret)
                {["grant_type" := "client_credentials"]}
                {["Content-Type" := "application/x-www-form-urlencoded"]}]).
Proof. by rewrite get_auth_token_eq. Qed.

(** ** Further properties of the authentication tools *)

(** X11: when the exchange returns a token, [authenticate_ops] reports
    success and stores a client that holds the token; the client carries
    the [Authorization] header ["Bearer " + token] exactly when the
    token is truthy, so an empty or null token is reported as a success
    and stored without the header. *)
Theorem authenticate_ops_stores_token (rt : runtime)
    (consumer_key consumer_secret : string) (w : world) (r : response)
    (d : gmap string value) (token : value) :
  network rt (requests w) (token_request consumer_key consumer_secret)
  = Responds r →
  is_success r = true →
  json_loads rt (response_text r) = inr (VDict d) →
  d !! "access_token" = Some token →
  (authenticate_ops rt consumer_key consumer_secret w).1
  = Return (VStr "Authentification réussie ! Token obtenu et configuré.")
  ∧ ∃ c, ops_client (authenticate_ops rt consumer_key consumer_secret w).2
         = Some c
         ∧ access_token c = token
         ∧ headers c !! "Authorization"
           = (if py_truthy token
              then Some ("Bearer " +:+ format_value rt token)
              else None)
         ∧ headers c !! "Accept" = Some "application/xml"
         ∧ headers c !! "User-Agent" = Some "ops-mcp-server/1.0".
Proof.
  intros Hnet Hok Hjson Htok. unfold authenticate_ops.
  rewrite authenticate_with_eq, get_auth_token_eq, Hnet, Hok, Hjson, Htok.
  simpl. split; [done|]. exists (init_client rt token).
  split; [done|]. split; [done|]. unfold init_client. simpl.
  destruct (py_truthy token); simplify_map_eq; done.
Qed.

Lemma authenticate_ops_stores_token_witness :
  (authenticate_ops (token_runtime (VStr "") (answers token_answer))
     "key" "secret" initial).1
  = Return (VStr "Authentification réussie ! Token obtenu et configuré.")
  ∧ ∃ c, ops_client (authenticate_ops
                       (token_runtime (VStr "") (answers token_answer))
                       "key" "secret" initial).2 = Some c
         ∧ headers c !! "Authorization" = None.
Proof.
  destruct (authenticate_ops_stores_token
              (token_runtime (VStr "") (answers token_answer))
              "key" "secret" initial token_answer
              {["access_token" := VStr ""]} (VStr ""))
    as [Hmsg (c & Hc & _ & Hauth & _)]; try reflexivity.
  split; [exact Hmsg|]. exists c. split; [exact Hc | exact Hauth].
Defined.

(** X12: when the exchange fails in transport or with a status outside
    2xx, [authenticate_ops] returns a string that carries the fixed
    prefix twice, once from [get_auth_token] and once from the tool,
    before the text of the underlying error. *)
Theorem authenticate_ops_doubles_prefix (rt : runtime)
    (consumer_key consumer_secret : string) (w : world) (cause : exn) :
  (network rt (requests w) (token_request consumer_key consumer_secret)
   = Raises cause ∧ is_HTTPError cause = true)
  ∨ (∃ r, network rt (requests w) (token_request consumer_key consumer_secret)
          = Responds r
          ∧ is_success r = false
          ∧ cause = HTTPStatusError (status_code r)
                      (status_error_message rt auth_url r)) →
  (authenticate_ops rt consumer_key consumer_secret w).1
  = Return (VStr ("Erreur d'authentification: "
                  +:+ "Erreur d'authentification: " +:+ exn_str cause)).
Proof.
  intros Hfail. unfold authenticate_ops.
  rewrite authenticate_with_eq, get_auth_token_eq. simpl.
  destruct Hfail as [[-> Hc]|(r & -> & Hr & ->)].
  - by rewrite Hc.
  - by rewrite Hr.
Qed.

Lemma authenticate_ops_doubles_prefix_witness :
  (authenticate_ops (sample_runtime unreachable) "key" "secret" initial).1
  = Return (VStr ("Erreur d'authentification: "
                  +:+ "Erreur d'authentification: "
                  +:+ "All connection attempts failed")).
Proof.
  apply (authenticate_ops_doubles_prefix (sample_runtime unreachable)
           "key" "secret" initial
           (TransportError "All connection attempts failed")).
  left. split; reflexivity.
Defined.

(** X13: a 2xx answer whose body does not decode or has no
    ["access_token"] does not escape [authenticate_ops] either: the tool
    returns the prefix followed by the text of the decoding or subscript
    error, and the client it leaves holds no token. *)
Theorem authenticate_ops_reports_bad_body (rt : runtime)
    (consumer_key consumer_secret : string) (w : world) (r : response) :
  network rt (requests w) (token_request consumer_key consumer_secret)
  = Responds r →
  is_success r = true →
  has_access_token (json_loads rt (response_text r)) = false →
  (authenticate_ops rt consumer_key consumer_secret w).1
  = Return (VStr ("Erreur d'authentification: "
                  +:+ exn_str
                        match json_loads rt (response_text r) with
                        | inl msg => JSONDecodeError msg
                        | inr (VDict _) => KeyError "access_token"
                        | inr v => TypeError (getitem_error_message rt v)
                        end))
  ∧ ops_client (authenticate_ops rt consumer_key consumer_secret w).2
    = Some bare_client.
Proof.
  intros Hnet Hok Hno. unfold authenticate_ops.
  rewrite authenticate_with_eq, get_auth_token_eq, Hnet, Hok. simpl.
  destruct (json_loads rt (response_text r)) as [msg|[]]; simpl in *;
    try done.
  by destruct (_ !! _).
Qed.

Lemma authenticate_ops_reports_bad_body_witness :
  (authenticate_ops
     (sample_runtime (answers (mkResponse 200 (Some "application/json") "{}")))
     "key" "secret" initial).1
  = Return (VStr "Erreur d'authentification: 'access_token'").
Proof.
  exact (proj1 (authenticate_ops_reports_bad_body
                  (sample_runtime
                     (answers (mkResponse 200 (Some "application/json") "{}")))
                  "key" "secret" initial
                  (mkResponse 200 (Some "application/json") "{}")
                  eq_refl eq_refl eq_refl)).
Defined.

(** X14: every call of [authenticate_ops] returns a string, sends
    exactly one request (the token exchange), leaves a client in
    [ops_client] whatever the outcome, and opens one more HTTP client
    than it closes: the client stored before the call is never
    closed. *)
Theorem authenticate_ops_effects (rt : runtime)
    (consumer_key consumer_secret : string) (w : world) :
  (∃ msg, (authenticate_ops rt consumer_key consumer_secret w).1
          = Return (VStr msg))
  ∧ requests (authenticate_ops rt consumer_key consumer_secret w).2
    = requests w ++ [token_request consumer_key consumer_secret]
  ∧ is_Some (ops_client (authenticate_ops rt consumer_key consumer_secret w).2)
  ∧ live_clients (authenticate_ops rt consumer_key consumer_secret w).2
    = S (live_clients w).
Proof.
  unfold authenticate_ops. rewrite authenticate_with_eq. simpl.
  split; [|split; [done|split; [by eexists|done]]].
  destruct (get_auth_token rt _ _ _ _).1; eauto.
Qed.

(** X15: [authenticate_ops_env] with [OPS_ID] or [OPS_SECRET] unset or
    empty returns its fixed message and touches nothing: no request is
    sent and [ops_client] stays as it was.  With both set it acts on the
    state as [authenticate_ops] with these credentials. *)
Theorem authenticate_ops_env_needs_both (rt : runtime) (w : world) :
  (missing (getenv rt "OPS_ID") || missing (getenv rt "OPS_SECRET") = true →
   authenticate_ops_env rt w
   = (Return (VStr "Erreur: Variables d'environnement OPS_ID et OPS_SECRET non trouvées dans le fichier .env"),
      w))
  ∧ (∀ k s, getenv rt "OPS_ID" = Some k → getenv rt "OPS_SECRET" = Some s →
            PyStr.truthy k = true → PyStr.truthy s = true →
            (authenticate_ops_env rt w).2 = (authenticate_ops rt k s w).2).
Proof.
  unfold authenticate_ops_env, authenticate_ops. split.
  - by intros ->.
  - intros k s -> -> Hk Hs. simpl. rewrite Hk, Hs. simpl.
    by rewrite !authenticate_with_eq.
Qed.

Lemma authenticate_ops_env_needs_both_witness :
  authenticate_ops_env (sample_runtime unreachable) initial
  = (Return (VStr "Erreur: Variables d'environnement OPS_ID et OPS_SECRET non trouvées dans le fichier .env"),
     initial)
  ∧ (authenticate_ops_env (token_runtime (VStr "t") (answers token_answer))
       initial).2
    = (authenticate_ops (token_runtime (VStr "t") (answers token_answer))
         "key" "secret" initial).2.
Proof.
  split.
  - apply (proj1 (authenticate_ops_env_needs_both
                    (sample_runtime unreachable) initial)).
    reflexivity.
  - apply (proj2 (authenticate_ops_env_needs_both
                    (token_runtime (VStr "t") (answers token_answer)) initial)
             "key" "secret"); reflexivity.
Defined.

(** ** Further properties of the fetching tools *)

(** X16: the eleven fetching tools are one procedure applied to
    different endpoints, parameters, echoed arguments and result keys:
    the guard on [ops_client], one [make_request], and the success
    mapping or the error envelope. *)
Theorem tools_share_one_procedure (rt : runtime) (c : tool_call) (w : world) :
  fetches c = true →
  call_tool rt c w = fetch_with rt c w.
Proof. intros Hf. by rewrite call_tool_fetch_with. Qed.

Lemma tools_share_one_procedure_witness :
  call_tool (sample_runtime (answers plain_answer))
    (Call_get_patent_family "publication" "epodoc" "EP1000000" true)
    authenticated
  = fetch_with (sample_runtime (answers plain_answer))
      (Call_get_patent_family "publication" "epodoc" "EP1000000" true)
      authenticated.
Proof.
  apply (tools_share_one_procedure (sample_runtime (answers plain_answer))
           (Call_get_patent_family "publication" "epodoc" "EP1000000" true)
           authenticated).
  reflexivity.
Defined.

(** X17: a fetching tool never changes [ops_client]; stopped by the
    guard it leaves the whole state as it is, and past the guard it
    sends exactly one request, the [GET] of its endpoint with the
    headers of the stored client. *)
Theorem fetch_tool_effects (rt : runtime) (c : tool_call) (w : world) :
  fetches c = true →
  (call_tool rt c w).2
  = match ops_client w with
    | None => w
    | Some self =>
        mkWorld (ops_client w) (live_clients w)
                (requests w ++ [tool_request self c])
    end.
Proof.
  intros Hf. rewrite call_tool_fetch_with by done.
  destruct (ops_client w) as [self|] eqn:Hc.
  - rewrite (fetch_with_eq rt c w self Hc). simpl. by rewrite Hc.
  - by rewrite fetch_with_guard.
Qed.

Lemma fetch_tool_effects_witness :
  (call_tool (sample_runtime unreachable)
     (Call_get_legal_data "publication" "epodoc" "EP1000000") authenticated).2
  = mkWorld (ops_client authenticated) 1
      [GET (OPS_BASE_URL +:+ "/legal/publication/epodoc/EP1000000")
           (<["Authorization" := "Bearer token"]>
              (<["Accept" := "application/xml"]>
                 (<["User-Agent" := USER_AGENT]> ∅)))
           ∅].
Proof.
  apply (fetch_tool_effects (sample_runtime unreachable)
           (Call_get_legal_data "publication" "epodoc" "EP1000000")
           authenticated).
  reflexivity.
Defined.

(** X18: past the guard, a fetching tool whose request fails in
    transport or with a status outside 2xx returns the error envelope
    with the message ["Erreur de requête vers <url>: <error>"]; any
    other exception of the transport is returned in the envelope with
    its own text. *)
Theorem fetch_tool_failure_envelope (rt : runtime) (c : tool_call) (w : world)
    (self : OPSClient) :
  fetches c = true →
  ops_client w = Some self →
  (∀ cause,
     (network rt (requests w) (tool_request self c) = Raises cause
      ∧ is_HTTPError cause = true)
     ∨ (∃ r, network rt (requests w) (tool_request self c) = Responds r
             ∧ is_success r = false
             ∧ cause = HTTPStatusError (status_code r)
                         (status_error_message rt
                            (OPS_BASE_URL +:+ tool_endpoint c) r)) →
     (call_tool rt c w).1
     = Return (VDict {["error" :=
                 VStr ("Erreur de requête vers "
                       +:+ (OPS_BASE_URL +:+ tool_endpoint c) +:+ ": "
                       +:+ exn_str cause)]}))
  ∧ (∀ e, network rt (requests w) (tool_request self c) = Raises e →
          is_HTTPError e = false →
          (call_tool rt c w).1 = Return (VDict {["error" := VStr (exn_str e)]})).
Proof.
  intros Hf Hc. rewrite call_tool_fetch_with by done.
  rewrite (fetch_with_eq rt c w self Hc), make_request_eq. simpl.
  unfold tool_request. split.
  - intros cause [[-> Hcause]|(r & -> & Hr & ->)].
    + by rewrite Hcause.
    + by rewrite Hr.
  - intros e -> He. by rewrite He.
Qed.

Lemma fetch_tool_failure_envelope_witness :
  (call_tool (sample_runtime (answers unauthorized))
     (Call_search_patents "ti=solar" "biblio" "1-25") authenticated).1
  = Return (VDict {["error" :=
              VStr ("Erreur de requête vers "
                    +:+ (OPS_BASE_URL +:+ "/published-data/search") +:+ ": "
                    +:+ "Client error '401 Unauthorized' for url '"
                    +:+ (OPS_BASE_URL +:+ "/published-data/search") +:+ "'")]}).
Proof.
  destruct (fetch_tool_failure_envelope (sample_runtime (answers unauthorized))
              (Call_search_patents "ti=solar" "biblio" "1-25") authenticated
              (mkOPSClient (VStr "token")
                 (<["Authorization" := "Bearer token"]>
                    (<["Accept" := "application/xml"]>
                       (<["User-Agent" := USER_AGENT]> ∅))))
              eq_refl eq_refl) as [H _].
  apply (H (HTTPStatusError 401
              ("Client error '401 Unauthorized' for url '"
               +:+ (OPS_BASE_URL +:+ "/published-data/search") +:+ "'"))).
  right. exists unauthorized. repeat split; reflexivity.
Defined.



(** X20: after an authentication that obtained a non-empty string
    token, every fetching tool passes the guard and its [GET] carries
    the header [Authorization: Bearer <token>]. *)
Theorem authenticated_fetch_carries_bearer (rt : runtime)
    (consumer_key consumer_secret : string) (w : world) (r : response)
    (d : gmap string value) (token : string) (c : tool_call) :
  network rt (requests w) (token_request consumer_key consumer_secret)
  = Responds r →
  is_success r = true →
  json_loads rt (response_text r) = inr (VDict d) →
  d !! "access_token" = Some (VStr token) →
  PyStr.truthy token = true →
  fetches c = true →
  ∃ hdrs,
    requests (call_tool rt c
                (authenticate_ops rt consumer_key consumer_secret w).2).2
    = requests w
      ++ [token_request consumer_key consumer_secret;
          GET (OPS_BASE_URL +:+ tool_endpoint c) hdrs
              (or_empty (tool_params c))]
    ∧ hdrs !! "Authorization" = Some ("Bearer " +:+ token).
Proof.
  intros Hnet Hok Hjson Htok Htruthy Hf. unfold authenticate_ops.
  rewrite authenticate_with_eq, get_auth_token_eq, Hnet, Hok, Hjson, Htok.
  cbn [fst snd]. rewrite call_tool_fetch_with by done.
  erewrite fetch_with_eq by reflexivity. cbn [snd requests].
  exists (headers (init_client rt (VStr token))).
  split; [by rewrite <- app_assoc|].
  unfold init_client. simpl. rewrite Htruthy. by simplify_map_eq.
Qed.

Lemma authenticated_fetch_carries_bearer_witness :
  ∃ hdrs,
    requests (call_tool (token_runtime (VStr "abc") (answers token_answer))
                (Call_get_patent_biblio "publication" "epodoc" "EP1000000")
                (authenticate_ops
                   (token_runtime (VStr "abc") (answers token_answer))
                   "key" "secret" initial).2).2
    = [token_request "key" "secret";
       GET (OPS_BASE_URL +:+ "/published-data/publication/epodoc/EP1000000/biblio")
           hdrs ∅]
    ∧ hdrs !! "Authorization" = Some "Bearer abc".
Proof.
  apply (authenticated_fetch_carries_bearer
           (token_runtime (VStr "abc") (answers token_answer))
           "key" "secret" initial token_answer
           {["access_token" := VStr "abc"]} "abc"
           (Call_get_patent_biblio "publication" "epodoc" "EP1000000"));
    reflexivity.
Defined.

(** ** Sessions *)

Section SessionFacts.

Context (rt : runtime).

Implicit Types (w : world) (c : tool_call) (calls : list tool_call).

Lemma bare_client_built : bare_client = init_client rt VNone.
Proof. reflexivity. Qed.

(** One call: a value is returned, at most one request is sent after
    those already sent, and a client as [__init__] builds it stays
    one. *)
Lemma call_tool_step c w :
  ∃ v sent,
    (call_tool rt c w).1 = Return v
    ∧ requests (call_tool rt c w).2 = requests w ++ sent
    ∧ (length sent ≤ 1)%nat
    ∧ (client_built rt w → client_built rt (call_tool rt c w).2).
Proof.
  assert (∀ key secret ok,
            ∃ v sent,
              (authenticate_with rt key secret ok w).1 = Return v
              ∧ requests (authenticate_with rt key secret ok w).2
                = requests w ++ sent
              ∧ (length sent ≤ 1)%nat
              ∧ (client_built rt w →
                 client_built rt (authenticate_with rt key secret ok w).2))
    as Hauth.
  { intros key secret ok. rewrite authenticate_with_eq. simpl.
    destruct (get_auth_token rt bare_client key secret w).1 as [token|e];
      eexists _, [_]; (split; [reflexivity|]); (split; [reflexivity|]);
      (split; [simpl; lia|]); intros _; right; simpl.
    - by exists token.
    - exists VNone. by rewrite bare_client_built. }
  destruct (fetches c) eqn:Hf.
  - rewrite call_tool_fetch_with by done.
    destruct (ops_client w) as [self|] eqn:Hc.
    + rewrite (fetch_with_eq rt c w self Hc). simpl.
      destruct (make_request rt self _ _ w).1;
        eexists _, [_]; (split; [reflexivity|]); (split; [reflexivity|]);
        (split; [simpl; lia|]); unfold client_built; simpl; done.
    + rewrite fetch_with_guard by done. simpl.
      exists NOT_AUTHENTICATED, []. rewrite app_nil_r. simpl.
      repeat split; [lia | done].
  - destruct c; try discriminate Hf; simpl.
    + unfold authenticate_ops_env. destruct (_ || _).
      * eexists _, []. rewrite app_nil_r. simpl. repeat split; [lia | done].
      * apply Hauth.
    + apply Hauth.
Qed.

End SessionFacts.

(** X21: over any sequence of tool calls the global [ops_client] stays
    [None] or a client as [__init__] builds it for its token: the
    default [Accept] and [User-Agent] headers, and the [Authorization]
    header exactly for a truthy token. *)
Theorem session_keeps_client_built (rt : runtime) (calls : list tool_call)
    (w : world) :
  client_built rt w →
  client_built rt (session rt calls w).2.
Proof.
  revert w. induction calls as [|c calls IH]; intros w Hw; [done|].
  simpl. destruct (call_tool_step rt c w) as (v & sent & _ & _ & _ & Hb).
  destruct (call_tool rt c w) as [r w1]. simpl in Hb.
  specialize (IH w1 (Hb Hw)).
  destruct (session rt calls w1) as [rs w2]. exact IH.
Qed.

Lemma session_keeps_client_built_witness :
  client_built (token_runtime (VStr "abc") (answers token_answer))
    (session (token_runtime (VStr "abc") (answers token_answer))
       [Call_search_patents "ti=solar" "biblio" "1-25";
        Call_authenticate_ops "key" "secret";
        Call_get_legal_data "publication" "epodoc" "EP1000000"]
       initial).2.
Proof.
  apply (session_keeps_client_built
           (token_runtime (VStr "abc") (answers token_answer))
           [Call_search_patents "ti=solar" "biblio" "1-25";
            Call_authenticate_ops "key" "secret";
            Call_get_legal_data "publication" "epodoc" "EP1000000"]
           initial).
  left. reflexivity.
Defined.

(** X22: a session never raises and never retries: every call yields a
    returned value, the requests sent before are kept in order, and at
    most one request is added per call. *)
Theorem session_one_request_per_call (rt : runtime) (calls : list tool_call)
    (w : world) :
  length (session rt calls w).1 = length calls
  ∧ Forall (λ r, ∃ v, r = Return v) (session rt calls w).1
  ∧ ∃ sent, requests (session rt calls w).2 = requests w ++ sent
            ∧ (length sent ≤ length calls)%nat.
Proof.
  revert w. induction calls as [|c calls IH]; intros w.
  { simpl. repeat split; [constructor|]. exists []. by rewrite app_nil_r. }
  simpl. destruct (call_tool_step rt c w) as (v & sent & Hv & Hs & Hl & _).
  destruct (call_tool rt c w) as [r w1]. simpl in Hv, Hs. subst r.
  destruct (IH w1) as (Hlen & Hall & sent' & Hs' & Hl').
  destruct (session rt calls w1) as [rs w2]. simpl in *.
  split; [by rewrite Hlen|]. split; [constructor; eauto|].
  exists (sent ++ sent'). rewrite Hs', Hs, <- app_assoc. split; [done|].
  rewrite length_app. lia.
Qed.

(** X23: as long as no authentication tool has been called, fetching
    tools do nothing: from a state without client every call of a
    sequence of fetching calls returns the fixed envelope and the state
    is the same at the end. *)
Theorem session_guard_holds (rt : runtime) (calls : list tool_call)
    (w : world) :
  ops_client w = None →
  forallb fetches calls = true →
  session rt calls w
  = ((λ _, Return NOT_AUTHENTICATED) <$> calls, w).
Proof.
  intros Hc. induction calls as [|c calls IH]; intros Hf; [done|].
  simpl in Hf. apply andb_true_iff in Hf as [Hfc Hf].
  simpl. rewrite call_tool_fetch_with, fetch_with_guard by done.
  by rewrite (IH Hf).
Qed.

Lemma session_guard_holds_witness :
  session (sample_runtime (answers plain_answer))
    [Call_search_patents "ti=solar" "biblio" "1-25";
     Call_convert_patent_number "publication" "docdb" "EP1000000" "epodoc"]
    initial
  = ([Return NOT_AUTHENTICATED; Return NOT_AUTHENTICATED], initial).
Proof.
  apply (session_guard_holds (sample_runtime (answers plain_answer))
           [Call_search_patents "ti=solar" "biblio" "1-25";
            Call_convert_patent_number "publication" "docdb" "EP1000000"
              "epodoc"]
           initial); reflexivity.
Defined.

(** X24: [get_cpc_classification] treats an empty subclass as no
    subclass when it builds the request, and with the flags off and the
    depth ["1"] it sends no query parameter at all. *)
Theorem cpc_request_edges (rt : runtime) (cpc_class : string)
    (ancestors navigation : bool) (depth : string) (w : world) :
  (get_cpc_classification rt cpc_class (Some "") ancestors navigation depth w).2
  = (get_cpc_classification rt cpc_class None ancestors navigation depth w).2
  ∧ ∀ self subclass,
      ops_client w = Some self →
      ∃ url,
        requests (get_cpc_classification rt cpc_class subclass false false
                    "1" w).2
        = requests w ++ [GET url (headers self) ∅].
Proof.
  split.
  - change (get_cpc_classification rt cpc_class (Some "") ancestors navigation
              depth)
      with (call_tool rt (Call_get_cpc_classification cpc_class (Some "")
                            ancestors navigation depth)).
    change (get_cpc_classification rt cpc_class None ancestors navigation depth)
      with (call_tool rt (Call_get_cpc_classification cpc_class None
                            ancestors navigation depth)).
    rewrite !call_tool_fetch_with by done.
    destruct (ops_client w) as [self|] eqn:Hc.
    + by rewrite !(fetch_with_eq rt _ w self Hc).
    + by rewrite !fetch_with_guard.
  - intros self subclass Hc.
    change (get_cpc_classification rt cpc_class subclass false false "1")
      with (call_tool rt (Call_get_cpc_classification cpc_class subclass
                            false false "1")).
    rewrite call_tool_fetch_with by done.
    rewrite (fetch_with_eq rt _ w self Hc). simpl. eexists. reflexivity.
Qed.
